(** * useDraggable: the drag controller of hooksy, embedded in Rocq

    Source: packages/core/src/hooks/elements/useDraggable/index.tsx.

    Modelling choices.
    - Coordinates ([clientX], [clientY], rectangle edges, positions) are
      integers ([Z]) in the model of the handlers; the arithmetic of the hook
      is subtraction, [Math.min] and [Math.max] only.  Where a property
      depends on [NaN] or on the order of numbers that are not integers, it
      is stated over the module [Number], which has [NaN], an arbitrary
      total order of values and an arbitrary subtraction; the integer model
      is its instance at the integers.
    - A DOM node is a natural number; [===] on nodes is equality of numbers.
    - The hook keeps React state ([draggableState]) and two refs
      ([elementRef], [startPosRef]).  A handler is a closure over the
      [draggableState] of the render that created it; the listeners are
      re-registered after every render, so an event is handled by the
      closures of the latest committed state.  [dispatchEvent] makes this
      explicit: it passes the controller's current state as the snapshot.
    - A handler runs in a small monad: it threads the controller, appends to a
      log of observable effects ([preventDefault], callback invocations) and
      may stop with an exception. *)

From Stdlib Require Import ZArith List Bool Lia String.
Import ListNotations.
Local Open Scope Z_scope.

(** ** Data model *)

(** [{ x: number; y: number }] *)
Module Pos.
Record t : Type := mk { x : Z; y : Z }.

Definition zero : t := mk 0 0.

(** Component-wise difference. *)
Definition sub (p q : t) : t := mk (x p - x q) (y p - y q).
End Pos.

(** [DraggableBounds] *)
Module Bounds.
Record t : Type := mk { left : Z; top : Z; right : Z; bottom : Z }.

(** The rectangle is not degenerate (the hook never checks this). *)
Definition ordered (b : t) : Prop := left b <= right b /\ top b <= bottom b.

(** [p] lies in the inclusive rectangle [b]. *)
Definition contains (b : t) (p : Pos.t) : Prop :=
  left b <= Pos.x p <= right b /\ top b <= Pos.y p <= bottom b.
End Bounds.

(** The part of a [DOMRect] that the hook reads. *)
Module Rect.
Record t : Type := mk { left : Z; top : Z }.
End Rect.

(** [DraggableAxis = "both" | "x" | "y"] *)
Inductive DraggableAxis : Type := AxisBoth | AxisX | AxisY.

(** [DraggableState] *)
Record DraggableState : Type := mkState {
  isDragging : bool;
  position : Pos.t;
  delta : Pos.t;
  startPosition : option Pos.t
}.

(** DOM nodes, compared by identity. *)
Definition Node : Type := nat.

(** [event.target === elementRef.current], both possibly [null]. *)
Definition same_node (a b : option Node) : bool :=
  match a, b with
  | Some n, Some m => Nat.eqb n m
  | None, None => true
  | _, _ => false
  end.

Record Touch : Type := mkTouch { touchX : Z; touchY : Z }.

Inductive MouseType : Type := mousedown | mousemove | mouseup.
Inductive TouchType : Type := touchstart | touchmove | touchend.

(** [MouseEvent | TouchEvent]: a mouse event carries [clientX], [clientY];
    a touch event carries the list [touches]. *)
Inductive NativeEvent : Type :=
| MouseEvent (type : MouseType) (target : option Node) (clientX clientY : Z)
| TouchEvent (type : TouchType) (target : option Node) (touches : list Touch).

Definition target_of (event : NativeEvent) : option Node :=
  match event with
  | MouseEvent _ t _ _ => t
  | TouchEvent _ t _ => t
  end.

(** The three phases of a gesture, for either input device. *)
Definition isDown (event : NativeEvent) : bool :=
  match event with
  | MouseEvent mousedown _ _ _ | TouchEvent touchstart _ _ => true
  | _ => false
  end.

Definition isMove (event : NativeEvent) : bool :=
  match event with
  | MouseEvent mousemove _ _ _ | TouchEvent touchmove _ _ => true
  | _ => false
  end.

Definition isUp (event : NativeEvent) : bool :=
  match event with
  | MouseEvent mouseup _ _ _ | TouchEvent touchend _ _ => true
  | _ => false
  end.

(** A touch-start or touch-move event lists at least one contact point, as
    the events a browser produces do.  A [touchend] may list none, and a
    script can dispatch any [TouchEvent] with an empty list. *)
Definition hasContactPoint (event : NativeEvent) : bool :=
  match event with
  | TouchEvent touchend _ _ => true
  | TouchEvent _ _ [] => false
  | _ => true
  end.

(** The layout the hook observes through the DOM. *)
Record DOM : Type := mkDOM {
  getBoundingClientRect : Node -> Rect.t;
  parentNode : Node -> option Node
}.

(** ** Effects *)

Inductive CallbackName : Type := OnStart | OnMove | OnEnd.

Inductive Exn : Type :=
| TypeError                              (* reading a property of undefined *)
| CallbackThrew (name : CallbackName).   (* raised by caller-supplied code *)

(** How a caller-supplied callback completes. *)
Inductive Completion : Type := Returns | Throws.

Definition Callback : Type := DraggableState -> NativeEvent -> Completion.

Inductive Effect : Type :=
| PreventDefault
| Invoked (name : CallbackName) (state : DraggableState).

(** The callback invocations of a log, in order. *)
Fixpoint callbacks (log : list Effect) : list (CallbackName * DraggableState) :=
  match log with
  | [] => []
  | PreventDefault :: rest => callbacks rest
  | Invoked n s :: rest => (n, s) :: callbacks rest
  end.

Definition CallbackName_eqb (a b : CallbackName) : bool :=
  match a, b with
  | OnStart, OnStart | OnMove, OnMove | OnEnd, OnEnd => true
  | _, _ => false
  end.

(** The states one callback was invoked with, in order. *)
Definition invocations (name : CallbackName) (log : list Effect)
    : list DraggableState :=
  map snd (filter (fun ns => CallbackName_eqb (fst ns) name) (callbacks log)).

(** [UseDraggableOptions], after the defaults of the destructuring. The two
    booleans say whether [customWindow] and [customDocument] are defined. *)
Record UseDraggableOptions : Type := mkOptions {
  customWindow : bool;
  customDocument : bool;
  axis : DraggableAxis;
  bounds : option Bounds.t;
  disabled : bool;
  onStart : option Callback;
  onMove : option Callback;
  onEnd : option Callback
}.

(** The callback configured under a name. *)
Definition callbackOf (options : UseDraggableOptions) (name : CallbackName)
    : option Callback :=
  match name with
  | OnStart => onStart options
  | OnMove => onMove options
  | OnEnd => onEnd options
  end.

(** [useDraggable()] with no options, in a browser. *)
Definition defaultOptions : UseDraggableOptions :=
  mkOptions true true AxisBoth None false None None None.

(** What one hook instance owns: the React state and the two refs. *)
Record Controller : Type := mkController {
  draggableState : DraggableState;
  elementRef : option Node;
  startPosRef : option Pos.t
}.

(** The [useState] initial value and the initial refs. *)
Definition initialState : DraggableState :=
  mkState false Pos.zero Pos.zero None.

Definition initialController : Controller :=
  mkController initialState None None.

(** ** The handler monad *)

Inductive Result (A : Type) : Type :=
| Ok (a : A)
| Raise (e : Exn).
Arguments Ok {A} a.
Arguments Raise {A} e.

Record Outcome (A : Type) : Type := mkOutcome {
  result : Result A;
  after : Controller;
  effects : list Effect
}.
Arguments mkOutcome {A}.
Arguments result {A}.
Arguments after {A}.
Arguments effects {A}.

Definition M (A : Type) : Type := Controller -> Outcome A.

Definition ret {A} (a : A) : M A := fun c => mkOutcome (Ok a) c [].

Definition bind {A B} (m : M A) (k : A -> M B) : M B :=
  fun c =>
    match m c with
    | mkOutcome (Ok a) c1 log1 =>
        match k a c1 with
        | mkOutcome r c2 log2 => mkOutcome r c2 (log1 ++ log2)
        end
    | mkOutcome (Raise e) c1 log1 => mkOutcome (Raise e) c1 log1
    end.

Notation "x <- m ;; k" := (bind m (fun x => k))
  (at level 61, m at next level, right associativity).
Notation "m ;; k" := (bind m (fun _ => k))
  (at level 61, right associativity).

Definition lift {A} (r : Result A) : M A := fun c => mkOutcome r c [].

Definition emit (e : Effect) : M unit := fun c => mkOutcome (Ok tt) c [e].

(** [setDraggableState(newState)] *)
Definition setDraggableState (s : DraggableState) : M unit :=
  fun c => mkOutcome (Ok tt) (mkController s (elementRef c) (startPosRef c)) [].

(** [setDraggableState((prev) => ...)] *)
Definition updateDraggableState (f : DraggableState -> DraggableState) : M unit :=
  fun c => mkOutcome (Ok tt)
             (mkController (f (draggableState c)) (elementRef c) (startPosRef c)) [].

Definition readElementRef : M (option Node) :=
  fun c => mkOutcome (Ok (elementRef c)) c [].

Definition writeElementRef (el : option Node) : M unit :=
  fun c => mkOutcome (Ok tt) (mkController (draggableState c) el (startPosRef c)) [].

Definition readStartPosRef : M (option Pos.t) :=
  fun c => mkOutcome (Ok (startPosRef c)) c [].

Definition writeStartPosRef (p : option Pos.t) : M unit :=
  fun c => mkOutcome (Ok tt) (mkController (draggableState c) (elementRef c) p) [].

(** [event.preventDefault()] *)
Definition preventDefault : M unit := emit PreventDefault.

(** [cb?.(state, event)] *)
Definition invoke (name : CallbackName) (cb : option Callback)
    (state : DraggableState) (event : NativeEvent) : M unit :=
  match cb with
  | None => ret tt
  | Some f =>
      emit (Invoked name state) ;;
      match f state event with
      | Returns => ret tt
      | Throws => lift (Raise (CallbackThrew name))
      end
  end.

(** ** The hook *)

(** [getCurrentPosition]: for a touch event [event.touches[0]] is read and
    then its [clientX]; on an empty list the element is [undefined] and the
    property access raises a [TypeError]. *)
Definition getCurrentPosition (event : NativeEvent) : Result Pos.t :=
  match event with
  | TouchEvent _ _ touches =>
      match touches with
      | touch :: _ => Ok (Pos.mk (touchX touch) (touchY touch))
      | [] => Raise TypeError
      end
  | MouseEvent _ _ clientX clientY => Ok (Pos.mk clientX clientY)
  end.

Section Hook.

Variable options : UseDraggableOptions.
Variable dom : DOM.

(** [constrainPosition] *)
Definition constrainPosition (pos : Pos.t) : Pos.t :=
  match bounds options with
  | None => pos
  | Some b =>
      Pos.mk (Z.max (Bounds.left b) (Z.min (Bounds.right b) (Pos.x pos)))
             (Z.max (Bounds.top b) (Z.min (Bounds.bottom b) (Pos.y pos)))
  end.

Section Render.

(** The state of the render whose closures are being run. *)
Variable rendered : DraggableState.

(** [applyAxisConstraints] *)
Definition applyAxisConstraints (pos : Pos.t) : Pos.t :=
  match axis options with
  | AxisX => Pos.mk (Pos.x pos) (Pos.y (position rendered))
  | AxisY => Pos.mk (Pos.x (position rendered)) (Pos.y pos)
  | AxisBoth => pos
  end.

(** [handleDragStart] *)
Definition handleDragStart (event : NativeEvent) : M unit :=
  if disabled options then ret tt
  else
    preventDefault ;;
    currentPos <- lift (getCurrentPosition event) ;;
    el <- readElementRef ;;
    match option_map (getBoundingClientRect dom) el with
    | Some rect =>
        let start := Pos.mk (Pos.x currentPos - Rect.left rect)
                            (Pos.y currentPos - Rect.top rect) in
        writeStartPosRef (Some start) ;;
        let newState :=
          mkState true (position rendered) (Pos.mk 0 0) (Some start) in
        setDraggableState newState ;;
        invoke OnStart (onStart options) newState event
    | None => ret tt
    end.

(** [handleDragMove]; the guard reads the snapshot, the option and the
    live ref [startPosRef.current]. *)
Definition handleDragMove (event : NativeEvent) : M unit :=
  startPos <- readStartPosRef ;;
  match negb (isDragging rendered) || disabled options, startPos with
  | false, Some start =>
      preventDefault ;;
      currentPos <- lift (getCurrentPosition event) ;;
      let newPosition := Pos.mk (Pos.x currentPos - Pos.x start)
                                (Pos.y currentPos - Pos.y start) in
      let constrainedPos := applyAxisConstraints newPosition in
      let finalPos := constrainPosition constrainedPos in
      let delta' :=
        Pos.mk (Pos.x finalPos - Pos.x (position rendered))
               (Pos.y finalPos - Pos.y (position rendered)) in
      let newState := mkState true finalPos delta' (Some start) in
      setDraggableState newState ;;
      invoke OnMove (onMove options) newState event
  | _, _ => ret tt
  end.

(** [handleDragEnd] *)
Definition handleDragEnd (event : NativeEvent) : M unit :=
  if negb (isDragging rendered) then ret tt
  else
    let newState :=
      mkState false (position rendered) (delta rendered)
              (startPosition rendered) in
    setDraggableState newState ;;
    writeStartPosRef None ;;
    invoke OnEnd (onEnd options) newState event.

(** The six listeners of the effect, selected by the event's type. *)
Definition listener (event : NativeEvent) : M unit :=
  match event with
  | MouseEvent mousedown target _ _
  | TouchEvent touchstart target _ =>
      el <- readElementRef ;;
      if same_node target el then handleDragStart event else ret tt
  | MouseEvent mousemove _ _ _
  | TouchEvent touchmove _ _ => handleDragMove event
  | MouseEvent mouseup _ _ _
  | TouchEvent touchend _ _ => handleDragEnd event
  end.

End Render.

(** The listener effect registers nothing when the document or the window
    is missing or the hook is disabled. *)
Definition listening : bool :=
  customDocument options && customWindow options && negb (disabled options).

(** An event reaches the document: the registered listeners, closed over
    the latest state, run. *)
Definition dispatchEvent (event : NativeEvent) : M unit :=
  fun c =>
    if listening then listener (draggableState c) event c
    else ret tt c.

(** [setElementRef] *)
Definition setElementRef (element : option Node) : M unit :=
  writeElementRef element.

(** [resetPosition] *)
Definition resetPosition : M unit :=
  updateDraggableState (fun prev =>
    mkState (isDragging prev) (Pos.mk 0 0) (Pos.mk 0 0) (startPosition prev)).

(** [setPosition] *)
Definition setPosition (x y : Z) : M unit :=
  let newPos := constrainPosition (Pos.mk x y) in
  updateDraggableState (fun prev =>
    mkState (isDragging prev) newPos (delta prev) (startPosition prev)).

(** What a client can do to a hook instance. *)
Inductive Action : Type :=
| Attach (element : option Node)
| Deliver (event : NativeEvent)
| SetPosition (x y : Z)
| ResetPosition.

Definition perform (a : Action) : M unit :=
  match a with
  | Attach element => setElementRef element
  | Deliver event => dispatchEvent event
  | SetPosition x y => setPosition x y
  | ResetPosition => resetPosition
  end.

(** A sequence of actions. An exception leaves a handler and reaches the
    event loop; the controller keeps what was written before it and the
    next action runs as usual. *)
Fixpoint run (actions : list Action) (c : Controller) : Controller :=
  match actions with
  | [] => c
  | a :: rest => run rest (after (perform a c))
  end.

(** The effects of a sequence of actions, in order. *)
Fixpoint trace (actions : list Action) (c : Controller) : list Effect :=
  match actions with
  | [] => []
  | a :: rest =>
      let o := perform a c in effects o ++ trace rest (after o)
  end.

End Hook.

(** ** Fixtures for the concrete runs *)

(** A page where every element's box has its corner at (10, 10) and node 2
    is a child of node 1. *)
Definition pageDOM : DOM :=
  mkDOM (fun _ => Rect.mk 10 10)
        (fun n => match n with 2%nat => Some 1%nat | _ => None end).

(** A callback that returns normally. *)
Definition quiet : Callback := fun _ _ => Returns.

(** The default options with all three callbacks supplied. *)
Definition observedOptions : UseDraggableOptions :=
  mkOptions true true AxisBoth None false (Some quiet) (Some quiet) (Some quiet).

Definition withBounds (o : UseDraggableOptions) (b : option Bounds.t)
    : UseDraggableOptions :=
  mkOptions (customWindow o) (customDocument o) (axis o) b (disabled o)
            (onStart o) (onMove o) (onEnd o).

Definition withAxis (o : UseDraggableOptions) (a : DraggableAxis)
    : UseDraggableOptions :=
  mkOptions (customWindow o) (customDocument o) a (bounds o) (disabled o)
            (onStart o) (onMove o) (onEnd o).

Definition withDisabled (o : UseDraggableOptions) (d : bool)
    : UseDraggableOptions :=
  mkOptions (customWindow o) (customDocument o) (axis o) (bounds o) d
            (onStart o) (onMove o) (onEnd o).

(** A controller in the middle of a drag of node 1: grabbed at offset
    (5, 5) and last moved by (3, 4) to (110, 10). *)
Definition midDrag : Controller :=
  mkController (mkState true (Pos.mk 110 10) (Pos.mk 3 4) (Some (Pos.mk 5 5)))
               (Some 1%nat) (Some (Pos.mk 5 5)).

(** ** The states the handlers write *)

Section Written.

Variable o : UseDraggableOptions.
Variable dom : DOM.

(** The state a drag start writes. *)
Definition startedState (c : Controller) (el : Node) (p : Pos.t)
    : DraggableState :=
  let rect := getBoundingClientRect dom el in
  mkState true (position (draggableState c)) (Pos.mk 0 0)
          (Some (Pos.mk (Pos.x p - Rect.left rect) (Pos.y p - Rect.top rect))).

(** The position a move computes from the pointer [p] and the offset
    [start]: subtract, hold the frozen axis, clamp. *)
Definition movedPosition (c : Controller) (start p : Pos.t) : Pos.t :=
  constrainPosition o
    (applyAxisConstraints o (draggableState c) (Pos.sub p start)).

(** The state a move writes. *)
Definition movedState (c : Controller) (start p : Pos.t) : DraggableState :=
  mkState true (movedPosition c start p)
          (Pos.sub (movedPosition c start p) (position (draggableState c)))
          (Some start).

(** The state a drag end writes. *)
Definition endedState (c : Controller) : DraggableState :=
  mkState false (position (draggableState c)) (delta (draggableState c))
          (startPosition (draggableState c)).

(** The effects of invoking an optional callback. *)
Definition invocationOf (name : CallbackName) (s : DraggableState)
    : list (CallbackName * DraggableState) :=
  match callbackOf o name with
  | Some _ => [(name, s)]
  | None => []
  end.

End Written.

(** ** The invariant of the two start offsets *)

(** While idle the live start-offset ref is empty; while dragging it holds
    the start offset recorded in the state. *)
Definition refs_agree (c : Controller) : Prop :=
  if isDragging (draggableState c)
  then startPosRef c <> None /\ startPosRef c = startPosition (draggableState c)
  else startPosRef c = None.

(** ** Vocabulary for the properties of the handlers *)

(** The controller with another element attached. *)
Definition withElement (c : Controller) (element : option Node) : Controller :=
  mkController (draggableState c) element (startPosRef c).

(** The options with no callback supplied. *)
Definition withoutCallbacks (o : UseDraggableOptions) : UseDraggableOptions :=
  mkOptions (customWindow o) (customDocument o) (axis o) (bounds o)
            (disabled o) None None None.

(** The callback that belongs to an event's phase. *)
Definition callbackFor (event : NativeEvent) : CallbackName :=
  match event with
  | MouseEvent mousedown _ _ _ | TouchEvent touchstart _ _ => OnStart
  | MouseEvent mousemove _ _ _ | TouchEvent touchmove _ _ => OnMove
  | MouseEvent mouseup _ _ _ | TouchEvent touchend _ _ => OnEnd
  end.

Definition isPreventDefault (e : Effect) : bool :=
  match e with
  | PreventDefault => true
  | Invoked _ _ => false
  end.

(** The guards in front of the two [event.preventDefault()] calls: a down
    that passes the target test of its listener, or a move that passes the
    guard of [handleDragMove]; in both cases with the listeners registered. *)
Definition passesGuards (o : UseDraggableOptions) (c : Controller)
    (event : NativeEvent) : bool :=
  listening o &&
  match event with
  | MouseEvent mousedown target _ _ | TouchEvent touchstart target _ =>
      same_node target (elementRef c)
  | MouseEvent mousemove _ _ _ | TouchEvent touchmove _ _ =>
      isDragging (draggableState c) &&
      match startPosRef c with Some _ => true | None => false end
  | MouseEvent mouseup _ _ _ | TouchEvent touchend _ _ => false
  end.

(** The mouse event type of the same phase as a touch event type. *)
Definition mouseTwin (type : TouchType) : MouseType :=
  match type with
  | touchstart => mousedown
  | touchmove => mousemove
  | touchend => mouseup
  end.

(** ** Event targets and the listener effects *)

(** The listener list of a [document] or [window].  A listener is identified
    by its type, its callback and its capture flag; [passive] is kept but
    takes no part in the identity.  A callback is a closure: the function's
    name and the run of the effect that created it. *)
Module EventTarget.

Record Closure : Type := mkClosure { effectRun : nat; name : string }.

Record Listener : Type := mkListener {
  type : string;
  callback : Closure;
  capture : bool;
  passive : option bool
}.

Definition t : Type := list Listener.

Definition same (a b : Listener) : bool :=
  String.eqb (type a) (type b) &&
  (Nat.eqb (effectRun (callback a)) (effectRun (callback b)) &&
   String.eqb (name (callback a)) (name (callback b))) &&
  Bool.eqb (capture a) (capture b).

(** [target.addEventListener(type, callback, { passive })]: appended unless
    the same listener is registered already. *)
Definition addEventListener (target : t) (ty : string) (cb : Closure)
    (pass : option bool) : t :=
  let l := mkListener ty cb false pass in
  if existsb (same l) target then target else target ++ [l].

Fixpoint removeFirst (l : Listener) (target : t) : t :=
  match target with
  | [] => []
  | x :: rest => if same l x then rest else x :: removeFirst l rest
  end.

(** [target.removeEventListener(type, callback)] *)
Definition removeEventListener (target : t) (ty : string) (cb : Closure) : t :=
  removeFirst (mkListener ty cb false None) target.

(** No listener of the target was created by effect run [run]. *)
Definition fresh (run : nat) (target : t) : Prop :=
  forall l, In l target -> effectRun (callback l) <> run.

End EventTarget.

(** The listener effect of [useDraggable], run number [run], on the
    document's listener list.  It does nothing, and returns no cleanup, when
    the document or the window is missing or the hook is disabled. *)
Definition listenerEffect (o : UseDraggableOptions) (run : nat)
    (document : EventTarget.t) : EventTarget.t :=
  if negb (customDocument o) || negb (customWindow o) || disabled o
  then document
  else
    let h := EventTarget.mkClosure run in
    let d1 := EventTarget.addEventListener document "mousedown" (h "handleMouseDown"%string) None in
    let d2 := EventTarget.addEventListener d1 "mousemove" (h "handleMouseMove"%string) None in
    let d3 := EventTarget.addEventListener d2 "mouseup" (h "handleMouseUp"%string) None in
    let d4 := EventTarget.addEventListener d3 "touchstart" (h "handleTouchStart"%string) (Some false) in
    let d5 := EventTarget.addEventListener d4 "touchmove" (h "handleTouchMove"%string) (Some false) in
    EventTarget.addEventListener d5 "touchend" (h "handleTouchEnd"%string) None.

(** The cleanup that effect run returned. *)
Definition listenerCleanup (o : UseDraggableOptions) (run : nat)
    (document : EventTarget.t) : EventTarget.t :=
  if negb (customDocument o) || negb (customWindow o) || disabled o
  then document
  else
    let h := EventTarget.mkClosure run in
    let d1 := EventTarget.removeEventListener document "mousedown" (h "handleMouseDown"%string) in
    let d2 := EventTarget.removeEventListener d1 "mousemove" (h "handleMouseMove"%string) in
    let d3 := EventTarget.removeEventListener d2 "mouseup" (h "handleMouseUp"%string) in
    let d4 := EventTarget.removeEventListener d3 "touchstart" (h "handleTouchStart"%string) in
    let d5 := EventTarget.removeEventListener d4 "touchmove" (h "handleTouchMove"%string) in
    EventTarget.removeEventListener d5 "touchend" (h "handleTouchEnd"%string).

(** ** useActiveElement *)

(** Source: packages/core/src/hooks/elements/useActiveElement/index.tsx.
    An element may host a shadow root and a shadow root may have an active
    element; the nesting is finite, which is what makes the loop of
    [getActiveElement] end. *)
Module ActiveElement.

Inductive Element : Type :=
| mkElement (node : Node) (shadowRoot : option ShadowRoot)
with ShadowRoot : Type :=
| mkShadowRoot (activeElement : option Element).

Definition node (e : Element) : Node :=
  match e with mkElement n _ => n end.

Definition shadowRoot (e : Element) : option ShadowRoot :=
  match e with mkElement _ s => s end.

Definition activeElement (s : ShadowRoot) : option Element :=
  match s with mkShadowRoot a => a end.

(** [document], as far as the hook reads it: [document.activeElement]. *)
Record Document : Type := mkDocument { documentActiveElement : option Element }.

(** The [while] loop of [getActiveElement], entered at a non-null element:
    [while (activeElement && activeElement.shadowRoot)
       activeElement = activeElement.shadowRoot.activeElement]. *)
Fixpoint searchDeep (e : Element) : option Element :=
  match e with
  | mkElement _ None => Some e
  | mkElement _ (Some (mkShadowRoot None)) => None
  | mkElement _ (Some (mkShadowRoot (Some inner))) => searchDeep inner
  end.

(** [getActiveElement] *)
Definition getActiveElement (document : Document) (deep : bool)
    : option Element :=
  match documentActiveElement document with
  | None => None
  | Some e => if negb deep then Some e else searchDeep e
  end.

(** The elements the loop visits, outermost first. *)
Fixpoint focusChain (e : Element) : list Element :=
  e :: match e with
       | mkElement _ (Some (mkShadowRoot (Some inner))) => focusChain inner
       | _ => []
       end.

(** [UseActiveElementOptions] after the defaults; the two booleans say
    whether [customWindow] and [customDocument] are defined. *)
Record Options : Type := mkOptions {
  customWindow : bool;
  customDocument : bool;
  deep : bool;
  triggerOnRemoval : bool
}.

(** [T | null | undefined] *)
Inductive Tracked : Type :=
| Undefined
| Null
| Active (e : Element).

Definition ofElement (e : option Element) : Tracked :=
  match e with
  | Some e => Active e
  | None => Null
  end.

(** [getCurrentActiveElement] *)
Definition getCurrentActiveElement (o : Options) (document : Document)
    : Tracked :=
  if negb (customDocument o) then Undefined
  else ofElement (getActiveElement document (deep o)).

(** [MutationRecord], as far as the observer reads it. *)
Inductive MutationType : Type := childList | attributes | characterData.

Record RemovedNode : Type := mkRemovedNode { nodeType : nat; removed : Node }.

Record MutationRecord : Type := mkMutation {
  mutationType : MutationType;
  removedNodes : list RemovedNode
}.

Definition ELEMENT_NODE : nat := 1.

Definition isChildList (t : MutationType) : bool :=
  match t with
  | childList => true
  | _ => false
  end.

Section Observer.

(** [a.contains(b)] for two nodes of the page. *)
Variable contains : Node -> Node -> bool.

(** [element === activeElement || element.contains(activeElement)]; neither
    holds when the tracked value is [null] or [undefined]. *)
Definition hits (element : Node) (tracked : Tracked) : bool :=
  match tracked with
  | Active e => Nat.eqb element (node e) || contains element (node e)
  | _ => false
  end.

(** The inner loop over [mutation.removedNodes]; [break] leaves it at the
    first hit. *)
Fixpoint scanRemoved (tracked : Tracked) (nodes : list RemovedNode)
    (shouldUpdate : bool) : bool :=
  match nodes with
  | [] => shouldUpdate
  | n :: rest =>
      if Nat.eqb (nodeType n) ELEMENT_NODE
      then if hits (removed n) tracked then true
           else scanRemoved tracked rest shouldUpdate
      else scanRemoved tracked rest shouldUpdate
  end.

(** The outer loop over the mutations; it has no [break]. *)
Fixpoint scanMutations (tracked : Tracked) (mutations : list MutationRecord)
    (shouldUpdate : bool) : bool :=
  match mutations with
  | [] => shouldUpdate
  | m :: rest =>
      scanMutations tracked rest
        (if isChildList (mutationType m)
         then scanRemoved tracked (removedNodes m) shouldUpdate
         else shouldUpdate)
  end.

(** What happens to a mounted hook.  Each action carries the document as it
    is at that moment. *)
Inductive Action : Type :=
| Mount (document : Document)
| Focus (document : Document)
| Mutations (mutations : list MutationRecord) (document : Document).

(** The tracked value after an action: the initial effect, the focus and
    blur listeners, the observer callback. *)
Definition perform (o : Options) (tracked : Tracked) (a : Action) : Tracked :=
  match a with
  | Mount document =>
      if customDocument o then getCurrentActiveElement o document else tracked
  | Focus document =>
      if negb (customDocument o) || negb (customWindow o) then tracked
      else getCurrentActiveElement o document
  | Mutations mutations document =>
      if negb (triggerOnRemoval o) || negb (customDocument o) then tracked
      else if scanMutations tracked mutations false
           then getCurrentActiveElement o document
           else tracked
  end.

Definition run (o : Options) (actions : list Action) (tracked : Tracked)
    : Tracked :=
  fold_left (perform o) actions tracked.

End Observer.

End ActiveElement.

(** ** useDocumentVisibility *)

(** Source: packages/core/src/hooks/elements/useDocumentVisibility. *)
Module DocumentVisibility.

Inductive DocumentVisibilityState : Type := visible | hidden | prerender.

Record Options : Type := mkOptions {
  customWindow : bool;
  customDocument : bool;
  immediate : bool
}.

(** [getCurrentVisibilityState], given [document.visibilityState]. *)
Definition getCurrentVisibilityState (o : Options)
    (visibilityState : DocumentVisibilityState)
    : option DocumentVisibilityState :=
  if negb (customDocument o) then None else Some visibilityState.

(** The initial effect, run when the hook mounts. *)
Definition mount (o : Options) (visibilityState : DocumentVisibilityState)
    : option DocumentVisibilityState :=
  if customDocument o && immediate o
  then getCurrentVisibilityState o visibilityState
  else None.

(** [handleVisibilityChange], registered for [visibilitychange], [pagehide]
    and [pageshow] when both the document and the window exist; the argument
    is [document.visibilityState] when the event arrives. *)
Definition handleVisibilityChange (o : Options)
    (current : option DocumentVisibilityState)
    (visibilityState : DocumentVisibilityState)
    : option DocumentVisibilityState :=
  if negb (customDocument o) || negb (customWindow o) then current
  else getCurrentVisibilityState o visibilityState.

(** The value of the ref after mounting and a sequence of events. *)
Definition run (o : Options) (atMount : DocumentVisibilityState)
    (events : list DocumentVisibilityState) : option DocumentVisibilityState :=
  fold_left (handleVisibilityChange o) events (mount o atMount).

End DocumentVisibility.

(** ** The listener effects of the two observing hooks *)

(** The focus listener effect of [useActiveElement], run number [run], on
    the listener lists of the document and the window. *)
Definition focusListenerEffect (o : ActiveElement.Options) (run : nat)
    (surfaces : EventTarget.t * EventTarget.t) : EventTarget.t * EventTarget.t :=
  let (document, window) := surfaces in
  if negb (ActiveElement.customDocument o) || negb (ActiveElement.customWindow o)
  then surfaces
  else
    let handleFocusChange := EventTarget.mkClosure run "handleFocusChange" in
    let d1 := EventTarget.addEventListener document "focusin" handleFocusChange None in
    let d2 := EventTarget.addEventListener d1 "focusout" handleFocusChange None in
    let w1 := EventTarget.addEventListener window "focus" handleFocusChange None in
    let w2 := EventTarget.addEventListener w1 "blur" handleFocusChange None in
    (d2, w2).

Definition focusListenerCleanup (o : ActiveElement.Options) (run : nat)
    (surfaces : EventTarget.t * EventTarget.t) : EventTarget.t * EventTarget.t :=
  let (document, window) := surfaces in
  if negb (ActiveElement.customDocument o) || negb (ActiveElement.customWindow o)
  then surfaces
  else
    let handleFocusChange := EventTarget.mkClosure run "handleFocusChange" in
    let d1 := EventTarget.removeEventListener document "focusin" handleFocusChange in
    let d2 := EventTarget.removeEventListener d1 "focusout" handleFocusChange in
    let w1 := EventTarget.removeEventListener window "focus" handleFocusChange in
    let w2 := EventTarget.removeEventListener w1 "blur" handleFocusChange in
    (d2, w2).

(** The listener effect of [useDocumentVisibility]. *)
Definition visibilityListenerEffect (o : DocumentVisibility.Options)
    (run : nat) (surfaces : EventTarget.t * EventTarget.t)
    : EventTarget.t * EventTarget.t :=
  let (document, window) := surfaces in
  if negb (DocumentVisibility.customDocument o)
     || negb (DocumentVisibility.customWindow o)
  then surfaces
  else
    let handleVisibilityChange :=
      EventTarget.mkClosure run "handleVisibilityChange" in
    let d1 := EventTarget.addEventListener document "visibilitychange"
                handleVisibilityChange None in
    let w1 := EventTarget.addEventListener window "pagehide"
                handleVisibilityChange None in
    let w2 := EventTarget.addEventListener w1 "pageshow"
                handleVisibilityChange None in
    (d1, w2).

Definition visibilityListenerCleanup (o : DocumentVisibility.Options)
    (run : nat) (surfaces : EventTarget.t * EventTarget.t)
    : EventTarget.t * EventTarget.t :=
  let (document, window) := surfaces in
  if negb (DocumentVisibility.customDocument o)
     || negb (DocumentVisibility.customWindow o)
  then surfaces
  else
    let handleVisibilityChange :=
      EventTarget.mkClosure run "handleVisibilityChange" in
    let d1 := EventTarget.removeEventListener document "visibilitychange"
                handleVisibilityChange in
    let w1 := EventTarget.removeEventListener window "pagehide"
                handleVisibilityChange in
    let w2 := EventTarget.removeEventListener w1 "pageshow"
                handleVisibilityChange in
    (d1, w2).

(** ** JavaScript numbers and the position arithmetic *)

(** The hook's coordinates are JavaScript numbers.  The integer model above
    has no [NaN] and no rounding; this module states the arithmetic that
    writes [position] over numbers as they are: a number is [NaN] or a
    value, the values (infinities included, [-0] and [+0] identified as
    [===] does) are totally ordered, and subtraction is whatever the
    platform computes, [NaN] possibly. *)
Module Number.

Record Doubles : Type := mkDoubles {
  value : Type;
  leb : value -> value -> bool;
  leb_total : forall a b, leb a b = true \/ leb b a = true;
  leb_trans : forall a b c, leb a b = true -> leb b c = true -> leb a c = true;
  zero : value;
  minus : value -> value -> option value
}.

Inductive number (D : Doubles) : Type :=
| NaN
| Val (v : value D).
Arguments NaN {D}.
Arguments Val {D} v.

(** [a <= b]: false as soon as one side is [NaN]. *)
Definition le {D : Doubles} (a b : number D) : Prop :=
  match a, b with
  | Val u, Val v => leb D u v = true
  | _, _ => False
  end.

(** [a < b] *)
Definition lt {D : Doubles} (a b : number D) : Prop :=
  match a, b with
  | Val u, Val v => leb D v u = false
  | _, _ => False
  end.

(** [Math.max(a, b)] *)
Definition Math_max {D : Doubles} (a b : number D) : number D :=
  match a, b with
  | Val u, Val v => if leb D u v then Val v else Val u
  | _, _ => NaN
  end.

(** [Math.min(a, b)] *)
Definition Math_min {D : Doubles} (a b : number D) : number D :=
  match a, b with
  | Val u, Val v => if leb D u v then Val u else Val v
  | _, _ => NaN
  end.

(** [a - b] *)
Definition sub {D : Doubles} (a b : number D) : number D :=
  match a, b with
  | Val u, Val v =>
      match minus D u v with
      | Some w => Val w
      | None => NaN
      end
  | _, _ => NaN
  end.

(** [{ x: number; y: number }] *)
Module Pos.
Record t (D : Doubles) : Type := mk { x : number D; y : number D }.
Arguments mk {D} x y.
Arguments x {D} t.
Arguments y {D} t.
End Pos.

(** [DraggableBounds] *)
Module Bounds.
Record t (D : Doubles) : Type :=
  mk { left : number D; top : number D; right : number D; bottom : number D }.
Arguments mk {D} left top right bottom.
Arguments left {D} t.
Arguments top {D} t.
Arguments right {D} t.
Arguments bottom {D} t.

(** [left <= right] and [top <= bottom]; no edge is [NaN] then. *)
Definition ordered {D : Doubles} (b : t D) : Prop :=
  le (left b) (right b) /\ le (top b) (bottom b).

(** [left <= p.x <= right] and [top <= p.y <= bottom]. *)
Definition contains {D : Doubles} (b : t D) (p : Pos.t D) : Prop :=
  (le (left b) (Pos.x p) /\ le (Pos.x p) (right b)) /\
  (le (top b) (Pos.y p) /\ le (Pos.y p) (bottom b)).
End Bounds.

(** [DraggableState] *)
Record State (D : Doubles) : Type := mkState {
  isDragging : bool;
  position : Pos.t D;
  delta : Pos.t D;
  startPosition : option (Pos.t D)
}.
Arguments mkState {D} isDragging position delta startPosition.
Arguments isDragging {D} s.
Arguments position {D} s.
Arguments delta {D} s.
Arguments startPosition {D} s.

(** [constrainPosition] *)
Definition constrainPosition {D : Doubles} (bounds : option (Bounds.t D))
    (pos : Pos.t D) : Pos.t D :=
  match bounds with
  | None => pos
  | Some b =>
      Pos.mk (Math_max (Bounds.left b) (Math_min (Bounds.right b) (Pos.x pos)))
             (Math_max (Bounds.top b) (Math_min (Bounds.bottom b) (Pos.y pos)))
  end.

(** [applyAxisConstraints] *)
Definition applyAxisConstraints {D : Doubles} (axis : DraggableAxis)
    (draggableState : State D) (pos : Pos.t D) : Pos.t D :=
  match axis with
  | AxisX => Pos.mk (Pos.x pos) (Pos.y (position draggableState))
  | AxisY => Pos.mk (Pos.x (position draggableState)) (Pos.y pos)
  | AxisBoth => pos
  end.

(** The position that goes into the clamp in [handleDragMove]: pointer
    minus start offset, with the frozen axis held. *)
Definition constrainedPos {D : Doubles} (axis : DraggableAxis)
    (draggableState : State D) (start currentPos : Pos.t D) : Pos.t D :=
  let newPosition :=
    Pos.mk (sub (Pos.x currentPos) (Pos.x start))
           (sub (Pos.y currentPos) (Pos.y start)) in
  applyAxisConstraints axis draggableState newPosition.

(** The [newState] that [handleDragMove] stores, past its guards. *)
Definition handleDragMove {D : Doubles} (bounds : option (Bounds.t D))
    (axis : DraggableAxis) (draggableState : State D)
    (start currentPos : Pos.t D) : State D :=
  let finalPos :=
    constrainPosition bounds
      (constrainedPos axis draggableState start currentPos) in
  let delta' :=
    Pos.mk (sub (Pos.x finalPos) (Pos.x (position draggableState)))
           (sub (Pos.y finalPos) (Pos.y (position draggableState))) in
  mkState true finalPos delta' (Some start).

(** The updater of [setPosition] applied to the previous state. *)
Definition setPosition {D : Doubles} (bounds : option (Bounds.t D))
    (x y : number D) (prev : State D) : State D :=
  let newPos := constrainPosition bounds (Pos.mk x y) in
  mkState (isDragging prev) newPos (delta prev) (startPosition prev).

(** The updater of [resetPosition] applied to the previous state. *)
Definition resetPosition {D : Doubles} (prev : State D) : State D :=
  mkState (isDragging prev) (Pos.mk (Val (zero D)) (Val (zero D)))
          (Pos.mk (Val (zero D)) (Val (zero D))) (startPosition prev).

(** The integers among the numbers, with exact subtraction. *)
Definition integers : Doubles.
Proof.
  refine (mkDoubles Z Z.leb _ _ 0 (fun a b => Some (a - b))).
  - intros a b. destruct (Z.leb_spec a b); [left; reflexivity|].
    right. apply Z.leb_le. lia.
  - intros a b c Hab Hbc. apply Z.leb_le.
    apply Z.leb_le in Hab. apply Z.leb_le in Hbc. lia.
Defined.

End Number.

(** The integer model seen from the numbers. *)
Definition numberOfPos (p : Pos.t) : Number.Pos.t Number.integers :=
  Number.Pos.mk (Number.Val (D := Number.integers) (Pos.x p))
                (Number.Val (D := Number.integers) (Pos.y p)).

Definition numberOfBounds (b : Bounds.t) : Number.Bounds.t Number.integers :=
  Number.Bounds.mk (Number.Val (D := Number.integers) (Bounds.left b))
                   (Number.Val (D := Number.integers) (Bounds.top b))
                   (Number.Val (D := Number.integers) (Bounds.right b))
                   (Number.Val (D := Number.integers) (Bounds.bottom b)).

Definition numberOfState (s : DraggableState) : Number.State Number.integers :=
  Number.mkState (isDragging s) (numberOfPos (position s))
                 (numberOfPos (delta s))
                 (option_map numberOfPos (startPosition s)).

(** ** Proof automation *)

(** Unfolds the monad and the handlers down to matches on the input. *)
Ltac step_handler :=
  cbv beta iota zeta delta
    [dispatchEvent listener handleDragStart handleDragMove handleDragEnd
     setPosition resetPosition setElementRef invoke bind ret lift emit
     preventDefault setDraggableState updateDraggableState readElementRef
     writeElementRef readStartPosRef writeStartPosRef getCurrentPosition
     option_map draggableState elementRef startPosRef result after effects
     app].

(** Unfolds an event's path through the listeners, leaving [invoke] folded,
    and splits on every test the path meets. *)
Ltac unfold_handlers :=
  cbv beta iota zeta delta
    [listener handleDragStart handleDragMove handleDragEnd bind ret lift
     emit preventDefault setDraggableState readElementRef readStartPosRef
     writeStartPosRef getCurrentPosition option_map draggableState
     elementRef startPosRef].

Ltac split_paths :=
  repeat match goal with
  | |- context [if ?b then _ else _] => destruct b eqn:?
  | |- context [match ?b || _ with _ => _ end] => destruct b eqn:?; cbn [orb]
  | |- context [match ?x with Some _ => _ | None => _ end] =>
      is_var x; destruct x
  end.

Ltac handler_paths := unfold_handlers; split_paths.

(** ** Basic facts about the handlers *)

Lemma listening_true (o : UseDraggableOptions) :
  listening o = true ->
  customDocument o = true /\ customWindow o = true /\ disabled o = false.
Proof.
  unfold listening. intros H.
  apply andb_true_iff in H as [H Hd]. apply andb_true_iff in H as [H1 H2].
  apply negb_true_iff in Hd. auto.
Qed.

Lemma disabled_not_listening (o : UseDraggableOptions) :
  disabled o = true -> listening o = false.
Proof.
  unfold listening. intros ->. cbn. apply andb_false_r.
Qed.

Lemma same_node_refl (a : option Node) : same_node a a = true.
Proof. destruct a as [n|]; cbn; [apply Nat.eqb_refl | reflexivity]. Qed.

Lemma same_node_eq (a b : option Node) : same_node a b = true <-> a = b.
Proof.
  destruct a as [n|], b as [m|]; cbn; split; try congruence.
  - intros H. apply Nat.eqb_eq in H. congruence.
  - intros H. injection H as ->. apply Nat.eqb_refl.
Qed.

(** Clamping twice is clamping once, also for an inverted range. *)
Lemma clamp_idempotent (lo hi v : Z) :
  Z.max lo (Z.min hi (Z.max lo (Z.min hi v))) = Z.max lo (Z.min hi v).
Proof. lia. Qed.

Lemma constrainPosition_unbounded (o : UseDraggableOptions) (p : Pos.t) :
  bounds o = None -> constrainPosition o p = p.
Proof. intros Hb. unfold constrainPosition. rewrite Hb. reflexivity. Qed.

(** The clamped [y] depends on the [y] that goes in only. *)
Lemma constrainPosition_y (o : UseDraggableOptions) (p q : Pos.t) :
  Pos.y p = Pos.y q ->
  Pos.y (constrainPosition o p) = Pos.y (constrainPosition o q).
Proof.
  intros H. unfold constrainPosition. destruct (bounds o); cbn; congruence.
Qed.

Lemma constrainPosition_idempotent (o : UseDraggableOptions) (p : Pos.t) :
  constrainPosition o (constrainPosition o p) = constrainPosition o p.
Proof.
  unfold constrainPosition. destruct (bounds o) as [b|]; [|reflexivity].
  cbn. f_equal; apply clamp_idempotent.
Qed.

(** ** What each kind of event does *)

Section Transitions.

Variable o : UseDraggableOptions.
Variable dom : DOM.

Lemma not_listening_ignored (event : NativeEvent) (c : Controller) :
  listening o = false -> dispatchEvent o dom event c = mkOutcome (Ok tt) c [].
Proof. intros H. unfold dispatchEvent. rewrite H. reflexivity. Qed.

Lemma down_elsewhere_ignored (event : NativeEvent) (c : Controller) :
  isDown event = true ->
  same_node (target_of event) (elementRef c) = false ->
  dispatchEvent o dom event c = mkOutcome (Ok tt) c [].
Proof.
  intros Hdown Hneq. unfold dispatchEvent.
  destruct (listening o); [|reflexivity].
  destruct c as [s el sp].
  destruct event as [[] target cx cy | [] target touches];
    try discriminate Hdown; cbn in Hneq; step_handler;
    rewrite Hneq; reflexivity.
Qed.

Lemma down_on_element (event : NativeEvent) (c : Controller) (el : Node)
    (p : Pos.t) :
  listening o = true ->
  isDown event = true ->
  elementRef c = Some el ->
  target_of event = Some el ->
  getCurrentPosition event = Ok p ->
  let out := dispatchEvent o dom event c in
  let s := startedState dom c el p in
  after out = mkController s (Some el) (startPosition s) /\
  callbacks (effects out) = invocationOf o OnStart s.
Proof.
  intros Hl Hdown Hel Htgt Hpos.
  destruct (listening_true o Hl) as (_ & _ & Hdis).
  destruct c as [s el0 sp]. cbn in Hel. subst el0.
  unfold invocationOf, startedState. cbn [callbackOf].
  destruct event as [[] target cx cy | [] target [|touch rest]];
    try discriminate Hdown; try discriminate Hpos;
    cbn in Htgt, Hpos; subst target; injection Hpos as <-;
    step_handler; rewrite Hl, same_node_refl, Hdis;
    (destruct (onStart o) as [f|]; [destruct (f _ _)|]; cbn; split; reflexivity).
Qed.

(** A down with an unreadable pointer stops before anything is written. *)
Lemma down_without_contact (event : NativeEvent) (c : Controller) (e : Exn) :
  isDown event = true ->
  getCurrentPosition event = Raise e ->
  after (dispatchEvent o dom event c) = c /\
  callbacks (effects (dispatchEvent o dom event c)) = [].
Proof.
  intros Hdown Hpos. unfold dispatchEvent.
  destruct (listening o); [|split; reflexivity].
  destruct c as [s el sp].
  destruct event as [[] target cx cy | [] target [|touch rest]];
    try discriminate Hdown; cbn in Hpos; try discriminate Hpos; step_handler;
    (destruct (same_node target el); [destruct (disabled o)|]);
    cbn; split; reflexivity.
Qed.

(** A down while no element is attached writes nothing. *)
Lemma down_without_element (event : NativeEvent) (c : Controller) :
  isDown event = true ->
  elementRef c = None ->
  after (dispatchEvent o dom event c) = c /\
  callbacks (effects (dispatchEvent o dom event c)) = [].
Proof.
  intros Hdown Hel. unfold dispatchEvent.
  destruct (listening o); [|split; reflexivity].
  destruct c as [s el sp]. cbn in Hel. subst el.
  destruct event as [[] target cx cy | [] target [|touch rest]];
    try discriminate Hdown; step_handler;
    (destruct (same_node target None); [destruct (disabled o)|]);
    cbn; split; reflexivity.
Qed.

Lemma move_ignored (event : NativeEvent) (c : Controller) :
  isMove event = true ->
  isDragging (draggableState c) = false \/ startPosRef c = None ->
  dispatchEvent o dom event c = mkOutcome (Ok tt) c [].
Proof.
  intros Hmove Hidle. unfold dispatchEvent.
  destruct (listening o); [|reflexivity].
  destruct c as [s el sp]. cbn in Hidle.
  destruct event as [[] target cx cy | [] target touches];
    try discriminate Hmove; step_handler;
    (destruct Hidle as [-> | ->]; [destruct sp|];
     cbn; try reflexivity; destruct (negb _ || _); reflexivity).
Qed.

Lemma move_while_dragging (event : NativeEvent) (c : Controller)
    (start p : Pos.t) :
  listening o = true ->
  isMove event = true ->
  isDragging (draggableState c) = true ->
  startPosRef c = Some start ->
  getCurrentPosition event = Ok p ->
  let out := dispatchEvent o dom event c in
  let s := movedState o c start p in
  after out = mkController s (elementRef c) (Some start) /\
  callbacks (effects out) = invocationOf o OnMove s.
Proof.
  intros Hl Hmove Hdrag Hstart Hpos.
  destruct (listening_true o Hl) as (_ & _ & Hdis).
  destruct c as [s el sp]. cbn in Hdrag, Hstart. subst sp.
  unfold invocationOf, movedState, movedPosition, Pos.sub. cbn [callbackOf].
  destruct event as [[] target cx cy | [] target [|touch rest]];
    try discriminate Hmove; try discriminate Hpos;
    cbn in Hpos; injection Hpos as <-;
    step_handler; rewrite Hl, Hdrag, Hdis; cbn;
    (destruct (onMove o) as [f|]; [destruct (f _ _)|]; cbn; split; reflexivity).
Qed.

(** A move with an unreadable pointer stops before anything is written. *)
Lemma move_without_contact (event : NativeEvent) (c : Controller) :
  isMove event = true ->
  getCurrentPosition event = Raise TypeError ->
  after (dispatchEvent o dom event c) = c /\
  callbacks (effects (dispatchEvent o dom event c)) = [].
Proof.
  intros Hmove Hpos. unfold dispatchEvent.
  destruct (listening o); [|split; reflexivity].
  destruct c as [s el sp].
  destruct event as [[] target cx cy | [] target [|touch rest]];
    try discriminate Hmove; cbn in Hpos; try discriminate Hpos; step_handler;
    destruct (negb _ || _), sp; cbn; split; reflexivity.
Qed.

Lemma up_while_idle (event : NativeEvent) (c : Controller) :
  isUp event = true ->
  isDragging (draggableState c) = false ->
  dispatchEvent o dom event c = mkOutcome (Ok tt) c [].
Proof.
  intros Hup Hidle. unfold dispatchEvent.
  destruct (listening o); [|reflexivity].
  destruct c as [s el sp]. cbn in Hidle.
  destruct event as [[] target cx cy | [] target touches];
    try discriminate Hup; step_handler; rewrite Hidle; reflexivity.
Qed.

Lemma up_while_dragging (event : NativeEvent) (c : Controller) :
  listening o = true ->
  isUp event = true ->
  isDragging (draggableState c) = true ->
  let out := dispatchEvent o dom event c in
  after out = mkController (endedState c) (elementRef c) None /\
  callbacks (effects out) = invocationOf o OnEnd (endedState c).
Proof.
  intros Hl Hup Hdrag.
  destruct c as [s el sp]. cbn in Hdrag.
  unfold invocationOf, endedState. cbn [callbackOf].
  destruct event as [[] target cx cy | [] target touches];
    try discriminate Hup; step_handler; rewrite Hl, Hdrag; cbn;
    (destruct (onEnd o) as [f|]; [destruct (f _ _)|]; cbn; split; reflexivity).
Qed.

(** Every event is a down, a move or an up. *)
Lemma event_phase (event : NativeEvent) :
  isDown event = true \/ isMove event = true \/ isUp event = true.
Proof. destruct event as [[]| []]; cbn; auto. Qed.

End Transitions.

(** ** Every event, by cases *)

(** The controller after an event is the one before it, or one of the three
    written states. *)
Lemma dispatch_after_cases (o : UseDraggableOptions) (dom : DOM)
    (event : NativeEvent) (c : Controller) :
  let out := dispatchEvent o dom event c in
  after out = c \/
  (exists el p,
     isDown event = true /\ elementRef c = Some el /\
     getCurrentPosition event = Ok p /\
     after out = mkController (startedState dom c el p) (Some el)
                   (startPosition (startedState dom c el p))) \/
  (exists start p,
     isMove event = true /\ isDragging (draggableState c) = true /\
     startPosRef c = Some start /\ getCurrentPosition event = Ok p /\
     after out = mkController (movedState o c start p) (elementRef c)
                   (Some start)) \/
  (isUp event = true /\ isDragging (draggableState c) = true /\
   after out = mkController (endedState c) (elementRef c) None).
Proof.
  cbn zeta. destruct (listening o) eqn:Hl.
  2:{ left. rewrite not_listening_ignored by assumption. reflexivity. }
  destruct (event_phase event) as [Hdown | [Hmove | Hup]].
  - destruct (same_node (target_of event) (elementRef c)) eqn:Hsame.
    2:{ left. rewrite down_elsewhere_ignored by assumption. reflexivity. }
    apply same_node_eq in Hsame.
    destruct (getCurrentPosition event) as [p|e] eqn:Hpos.
    2:{ left. apply (down_without_contact o dom event c e); assumption. }
    destruct (elementRef c) as [el|] eqn:Hel.
    2:{ left. apply down_without_element; assumption. }
    right. left. exists el, p.
    destruct (down_on_element o dom event c el p Hl Hdown Hel Hsame Hpos)
      as [Hafter _].
    auto.
  - destruct (isDragging (draggableState c)) eqn:Hdrag.
    2:{ left. rewrite move_ignored by auto. reflexivity. }
    destruct (startPosRef c) as [start|] eqn:Hstart.
    2:{ left. rewrite move_ignored by auto. reflexivity. }
    destruct (getCurrentPosition event) as [p|e] eqn:Hpos.
    + right. right. left. exists start, p.
      destruct (move_while_dragging o dom event c start p Hl Hmove Hdrag
                  Hstart Hpos) as [Hafter _].
      auto.
    + left. destruct e.
      * apply move_without_contact; assumption.
      * destruct event as [? ? ? ?|? ? [|? ?]]; discriminate Hpos.
  - destruct (isDragging (draggableState c)) eqn:Hdrag.
    + right. right. right.
      destruct (up_while_dragging o dom event c Hl Hup Hdrag) as [Hafter _].
      auto.
    + left. rewrite up_while_idle by assumption. reflexivity.
Qed.

(** An optional callback completes normally or raises under its own name. *)
Lemma invoke_cases (name : CallbackName) (cb : option Callback)
    (s : DraggableState) (event : NativeEvent) (c : Controller) :
  invoke name cb s event c = mkOutcome (Ok tt) c (match cb with
                                                  | Some _ => [Invoked name s]
                                                  | None => []
                                                  end) \/
  (exists f, cb = Some f /\ f s event = Throws /\
     invoke name cb s event c
     = mkOutcome (Raise (CallbackThrew name)) c [Invoked name s]).
Proof.
  destruct cb as [f|]; [|left; reflexivity].
  destruct (f s event) eqn:Hf.
  - left. step_handler. rewrite Hf. reflexivity.
  - right. exists f. repeat split; [assumption|].
    step_handler. rewrite Hf. reflexivity.
Qed.

(** How an event's handling can complete: normally, with the [TypeError] of
    an empty [touches] list, or with what a supplied callback raised. *)
Lemma dispatch_result_cases (o : UseDraggableOptions) (dom : DOM)
    (event : NativeEvent) (c : Controller) :
  let out := dispatchEvent o dom event c in
  result out = Ok tt \/
  (result out = Raise TypeError /\ hasContactPoint event = false) \/
  (exists name cb s,
     result out = Raise (CallbackThrew name) /\
     callbackOf o name = Some cb /\ cb s event = Throws /\
     In (Invoked name s) (effects out)).
Proof.
  cbn zeta. unfold dispatchEvent.
  destruct (listening o); [|left; reflexivity].
  destruct c as [st el sp].
  destruct event as [[] target cx cy | [] target [|touch rest]];
    cbv beta iota zeta delta
      [listener handleDragStart handleDragMove handleDragEnd bind ret lift
       emit preventDefault setDraggableState readElementRef readStartPosRef
       writeStartPosRef getCurrentPosition option_map draggableState
       elementRef startPosRef];
    repeat match goal with
    | |- context [if ?b then _ else _] => destruct b
    | |- context [match ?b || _ with _ => _ end] => destruct b; cbn [orb]
    | |- context [match sp with _ => _ end] => destruct sp
    | |- context [match el with _ => _ end] => destruct el
    end;
    try (left; reflexivity);
    try (right; left; split; reflexivity);
    match goal with
    | |- context [invoke ?n ?cb ?s ?e ?c'] =>
        destruct (invoke_cases n cb s e c') as [H | (f & Hcb & Hf & H)];
        rewrite H; cbn;
        [left; reflexivity
        |right; right; exists n, f, s; cbn; repeat split; auto]
    end.
Qed.

(** ** Start events *)

(** C1, as stated, fails: a pointer-down on the attached element in the
    middle of a drag (not disabled) is not ignored.  It resets the delta,
    records a new start offset and invokes [onStart]. *)
Lemma nested_start_not_ignored :
  let c := midDrag in
  let event := MouseEvent mousedown (Some 1%nat) 30 40 in
  let out := dispatchEvent observedOptions pageDOM event c in
  isDragging (draggableState c) = true /\
  disabled observedOptions = false /\
  target_of event = elementRef c /\
  draggableState (after out)
    = mkState true (Pos.mk 110 10) (Pos.mk 0 0) (Some (Pos.mk 20 30)) /\
  draggableState (after out) <> draggableState c /\
  callbacks (effects out) = [(OnStart, draggableState (after out))].
Proof. cbv. repeat split; try reflexivity. discriminate. Qed.

(** C1, amended. A pointer/touch-down on the attached element while a drag
    is in progress (not disabled) starts the session again: [isDragging] and
    [position] are as before, [delta] becomes (0, 0), the start offset is
    recorded anew as pointer minus the element's corner, and [onStart], when
    supplied, is invoked with this state and nothing else is. *)
Theorem nested_start_restarts (o : UseDraggableOptions) (dom : DOM)
    (c : Controller) (event : NativeEvent) (el : Node) (p : Pos.t) :
  listening o = true ->
  isDragging (draggableState c) = true ->
  isDown event = true ->
  elementRef c = Some el ->
  target_of event = Some el ->
  getCurrentPosition event = Ok p ->
  let out := dispatchEvent o dom event c in
  let rect := getBoundingClientRect dom el in
  let offset := Pos.mk (Pos.x p - Rect.left rect) (Pos.y p - Rect.top rect) in
  let s := draggableState (after out) in
  isDragging s = isDragging (draggableState c) /\
  position s = position (draggableState c) /\
  delta s = Pos.mk 0 0 /\
  startPosition s = Some offset /\
  startPosRef (after out) = Some offset /\
  elementRef (after out) = elementRef c /\
  callbacks (effects out)
    = match onStart o with Some _ => [(OnStart, s)] | None => [] end.
Proof.
  intros Hl Hdrag Hdown Hel Htgt Hpos.
  destruct (down_on_element o dom event c el p Hl Hdown Hel Htgt Hpos)
    as [Hafter Hcalls].
  cbn zeta. rewrite Hcalls, Hafter. unfold invocationOf, startedState.
  cbn. rewrite Hdrag, Hel. repeat split; reflexivity.
Qed.

Lemma nested_start_restarts_witness :
  delta (draggableState
           (after (dispatchEvent observedOptions pageDOM
                     (TouchEvent touchstart (Some 1%nat) [mkTouch 30 40])
                     midDrag)))
  = Pos.mk 0 0.
Proof.
  exact (proj1 (proj2 (proj2
    (nested_start_restarts observedOptions pageDOM midDrag
       (TouchEvent touchstart (Some 1%nat) [mkTouch 30 40]) 1%nat
       (Pos.mk 30 40) eq_refl eq_refl eq_refl eq_refl eq_refl eq_refl)))).
Defined.

(** C10. A pointer/touch-down whose target is not the very node held in
    [elementRef] (a child of it, for one) changes nothing and invokes no
    callback: the controller, the log and the result are those of no event
    at all. *)
Theorem start_requires_attached_target (o : UseDraggableOptions) (dom : DOM)
    (c : Controller) (event : NativeEvent) :
  isDown event = true ->
  target_of event <> elementRef c ->
  dispatchEvent o dom event c = mkOutcome (Ok tt) c [].
Proof.
  intros Hdown Hneq. apply down_elsewhere_ignored; [assumption|].
  destruct (same_node (target_of event) (elementRef c)) eqn:E; [|reflexivity].
  apply same_node_eq in E. contradiction.
Qed.

Lemma start_requires_attached_target_witness :
  parentNode pageDOM 2%nat = Some 1%nat /\
  dispatchEvent observedOptions pageDOM
    (MouseEvent mousedown (Some 2%nat) 30 40)
    (mkController initialState (Some 1%nat) None)
  = mkOutcome (Ok tt) (mkController initialState (Some 1%nat) None) [].
Proof.
  split; [reflexivity|].
  apply (start_requires_attached_target observedOptions pageDOM
           (mkController initialState (Some 1%nat) None)
           (MouseEvent mousedown (Some 2%nat) 30 40));
    [reflexivity | discriminate].
Defined.

(** ** Disabled hooks *)

(** C9. With [disabled = true] no event of any kind, in any state, changes
    the controller or invokes a callback. *)
Theorem disabled_ignores_events (o : UseDraggableOptions) (dom : DOM)
    (c : Controller) (event : NativeEvent) :
  disabled o = true ->
  let out := dispatchEvent o dom event c in
  after out = c /\ effects out = [] /\ result out = Ok tt.
Proof.
  intros Hdis. cbn zeta.
  rewrite (not_listening_ignored o dom event c (disabled_not_listening o Hdis)).
  repeat split; reflexivity.
Qed.

Lemma disabled_ignores_events_witness :
  after (dispatchEvent (withDisabled observedOptions true) pageDOM
           (MouseEvent mouseup None 0 0) midDrag) = midDrag.
Proof.
  exact (proj1 (disabled_ignores_events (withDisabled observedOptions true)
                  pageDOM midDrag (MouseEvent mouseup None 0 0) eq_refl)).
Defined.

(** ** setPosition *)

(** C8. [setPosition x y] stores (x, y) clamped into the bounds when bounds
    are configured and (x, y) itself otherwise; [isDragging], [delta], the
    start offset and both refs are untouched, nothing is logged and nothing
    is raised. *)
Theorem setPosition_frame (o : UseDraggableOptions) (c : Controller)
    (x y : Z) :
  let out := setPosition o x y c in
  let s := draggableState (after out) in
  position s
    = match bounds o with
      | Some b => Pos.mk (Z.max (Bounds.left b) (Z.min (Bounds.right b) x))
                         (Z.max (Bounds.top b) (Z.min (Bounds.bottom b) y))
      | None => Pos.mk x y
      end /\
  isDragging s = isDragging (draggableState c) /\
  delta s = delta (draggableState c) /\
  startPosition s = startPosition (draggableState c) /\
  elementRef (after out) = elementRef c /\
  startPosRef (after out) = startPosRef c /\
  effects out = [] /\
  result out = Ok tt.
Proof.
  unfold setPosition, updateDraggableState, constrainPosition. cbn.
  destruct (bounds o); repeat split; reflexivity.
Qed.

(** ** Idle states *)

Lemma perform_refs_agree (o : UseDraggableOptions) (dom : DOM) (a : Action)
    (c : Controller) :
  refs_agree c -> refs_agree (after (perform o dom a c)).
Proof.
  intros Hc. destruct a as [element | event | x y | ]; try exact Hc.
  cbn [perform].
  destruct (dispatch_after_cases o dom event c)
    as [H | [(el & p & _ & _ & _ & H) | [(start & p & _ & Hd & Hs & _ & H) | (_ & _ & H)]]];
    rewrite H; try assumption; unfold refs_agree; cbn;
    try reflexivity; split; congruence.
Qed.

Lemma run_refs_agree (o : UseDraggableOptions) (dom : DOM)
    (actions : list Action) (c : Controller) :
  refs_agree c -> refs_agree (run o dom actions c).
Proof.
  revert c. induction actions as [|a rest IH]; intros c Hc; cbn [run].
  - exact Hc.
  - apply IH, perform_refs_agree, Hc.
Qed.

(** C2, as stated, fails: after attach, down, move and up the state is idle
    but still carries the start offset (5, 5) and the delta (110, 10) of the
    last move. *)
Lemma idle_keeps_offset_and_delta :
  let c := run observedOptions pageDOM
             [Attach (Some 1%nat);
              Deliver (MouseEvent mousedown (Some 1%nat) 15 15);
              Deliver (MouseEvent mousemove (Some 1%nat) 115 15);
              Deliver (MouseEvent mouseup (Some 1%nat) 115 15)]
             initialController in
  isDragging (draggableState c) = false /\
  startPosition (draggableState c) = Some (Pos.mk 5 5) /\
  delta (draggableState c) = Pos.mk 110 10 /\
  ~ (isDragging (draggableState c) = false ->
     startPosition (draggableState c) = None /\
     delta (draggableState c) = Pos.mk 0 0).
Proof.
  cbv. repeat split; try reflexivity.
  intros H. destruct (H eq_refl) as [H1 _]. discriminate H1.
Qed.

(** C2, amended. In every state reached from the initial one by attach,
    events, [setPosition] and [resetPosition], [isDragging = false] implies
    that the live start-offset ref ([startPosRef]) is empty.  A pointer/touch-up
    that ends a drag sets [isDragging] to false and empties that ref; the
    [startPosition], [delta] and [position] of the state stay as they were
    before the up, and [onEnd] receives that state. *)
Theorem idle_clears_start_ref (o : UseDraggableOptions) (dom : DOM)
    (actions : list Action) (event : NativeEvent) :
  let c := run o dom actions initialController in
  (isDragging (draggableState c) = false -> startPosRef c = None) /\
  (listening o = true -> isUp event = true ->
   isDragging (draggableState c) = true ->
   let out := dispatchEvent o dom event c in
   let s := draggableState (after out) in
   isDragging s = false /\
   startPosRef (after out) = None /\
   startPosition s = startPosition (draggableState c) /\
   delta s = delta (draggableState c) /\
   position s = position (draggableState c) /\
   callbacks (effects out)
     = match onEnd o with Some _ => [(OnEnd, s)] | None => [] end).
Proof.
  cbn zeta. split.
  - intros Hidle.
    pose proof (run_refs_agree o dom actions initialController eq_refl) as H.
    unfold refs_agree in H. rewrite Hidle in H. exact H.
  - intros Hl Hup Hdrag.
    destruct (up_while_dragging o dom event _ Hl Hup Hdrag) as [Hafter Hcalls].
    rewrite Hcalls, Hafter. unfold invocationOf, endedState. cbn.
    repeat split; reflexivity.
Qed.

Lemma idle_clears_start_ref_witness :
  let drag := [Attach (Some 1%nat);
               Deliver (MouseEvent mousedown (Some 1%nat) 15 15);
               Deliver (MouseEvent mousemove (Some 1%nat) 115 15)] in
  let c := run observedOptions pageDOM drag initialController in
  let out := dispatchEvent observedOptions pageDOM
               (MouseEvent mouseup None 0 0) c in
  startPosRef (after out) = None /\
  startPosition (draggableState (after out)) = Some (Pos.mk 5 5).
Proof.
  cbn zeta.
  destruct (idle_clears_start_ref observedOptions pageDOM
              [Attach (Some 1%nat);
               Deliver (MouseEvent mousedown (Some 1%nat) 15 15);
               Deliver (MouseEvent mousemove (Some 1%nat) 115 15)]
              (MouseEvent mouseup None 0 0)) as [_ H].
  destruct (H eq_refl eq_refl eq_refl) as (_ & Href & Hstart & _).
  split; [exact Href | exact Hstart].
Defined.

(** ** Exceptions *)

(** C4, as stated, fails: in the middle of a drag, with no callback
    supplied, a touch-move whose [touches] list is empty makes the handler
    raise a [TypeError]. *)
Lemma empty_touches_raise :
  let event := TouchEvent touchmove (Some 1%nat) [] in
  let out := dispatchEvent defaultOptions pageDOM event midDrag in
  result out = Raise TypeError /\
  callbackOf defaultOptions OnStart = None /\
  callbackOf defaultOptions OnMove = None /\
  callbackOf defaultOptions OnEnd = None.
Proof. cbv. repeat split; reflexivity. Qed.

(** C4, amended. For every mouse event, every touch-end, and every
    touch-start or touch-move that lists at least one contact point, the
    handling completes normally unless a supplied callback raises, and then
    the exception is that callback's.  A move event that arrives while no
    drag is in progress is a silent no-op whatever it carries: same
    controller, empty log, normal completion. *)
Theorem only_callbacks_raise (o : UseDraggableOptions) (dom : DOM)
    (c : Controller) (event : NativeEvent) :
  let out := dispatchEvent o dom event c in
  (hasContactPoint event = true ->
   result out = Ok tt \/
   exists name cb s,
     result out = Raise (CallbackThrew name) /\
     callbackOf o name = Some cb /\ cb s event = Throws) /\
  (isMove event = true ->
   isDragging (draggableState c) = false \/ startPosRef c = None ->
   out = mkOutcome (Ok tt) c []).
Proof.
  cbn zeta. split.
  - intros Hwf.
    destruct (dispatch_result_cases o dom event c)
      as [H | [[_ H] | (name & cb & s & H & Hcb & Hf & _)]].
    + left. exact H.
    + congruence.
    + right. exists name, cb, s. auto.
  - intros Hmove Hidle. apply move_ignored; assumption.
Qed.

Lemma only_callbacks_raise_witness :
  dispatchEvent observedOptions pageDOM
    (TouchEvent touchmove None [mkTouch 3 4]) initialController
  = mkOutcome (Ok tt) initialController [].
Proof.
  exact (proj2 (only_callbacks_raise observedOptions pageDOM initialController
                  (TouchEvent touchmove None [mkTouch 3 4]))
           eq_refl (or_introl eq_refl)).
Defined.

(** ** Moves *)

(** C5. A move event handled during a drag stores as position the pointer
    minus the start offset, with the frozen axis held and then clamped into
    the bounds, and stores as delta exactly that position minus the position
    stored before the move, component by component. *)
Theorem delta_is_position_change (o : UseDraggableOptions) (dom : DOM)
    (c : Controller) (event : NativeEvent) (start p : Pos.t) :
  listening o = true ->
  isMove event = true ->
  isDragging (draggableState c) = true ->
  startPosRef c = Some start ->
  getCurrentPosition event = Ok p ->
  let before := draggableState c in
  let s := draggableState (after (dispatchEvent o dom event c)) in
  position s
    = constrainPosition o (applyAxisConstraints o before (Pos.sub p start)) /\
  Pos.x (delta s) = Pos.x (position s) - Pos.x (position before) /\
  Pos.y (delta s) = Pos.y (position s) - Pos.y (position before).
Proof.
  intros Hl Hmove Hdrag Hstart Hpos.
  destruct (move_while_dragging o dom event c start p Hl Hmove Hdrag Hstart
              Hpos) as [Hafter _].
  cbn zeta. rewrite Hafter. cbn. repeat split; reflexivity.
Qed.

Lemma delta_is_position_change_witness :
  let o := withBounds observedOptions (Some (Bounds.mk 0 0 50 50)) in
  let c := mkController
             (mkState true (Pos.mk 20 0) (Pos.mk 0 0) (Some (Pos.mk 5 5)))
             (Some 1%nat) (Some (Pos.mk 5 5)) in
  let s := draggableState
             (after (dispatchEvent o pageDOM
                       (MouseEvent mousemove None 115 15) c)) in
  position s = Pos.mk 50 10 /\ Pos.x (delta s) = 50 - 20.
Proof.
  cbn zeta.
  destruct (delta_is_position_change
              (withBounds observedOptions (Some (Bounds.mk 0 0 50 50)))
              pageDOM
              (mkController
                 (mkState true (Pos.mk 20 0) (Pos.mk 0 0) (Some (Pos.mk 5 5)))
                 (Some 1%nat) (Some (Pos.mk 5 5)))
              (MouseEvent mousemove None 115 15) (Pos.mk 5 5) (Pos.mk 115 15)
              eq_refl eq_refl eq_refl eq_refl eq_refl) as (Hp & Hx & _).
  split; [exact Hp | exact Hx].
Defined.

(** ** The frozen axis *)

(** With [axis = "x"] one move event leaves [position.y] as it was or stores
    its clamped value. *)
Lemma x_axis_move_y (o : UseDraggableOptions) (dom : DOM) (c : Controller)
    (event : NativeEvent) :
  axis o = AxisX ->
  let c' := after (dispatchEvent o dom event c) in
  Pos.y (position (draggableState c')) = Pos.y (position (draggableState c)) \/
  Pos.y (position (draggableState c'))
    = Pos.y (constrainPosition o (position (draggableState c))).
Proof.
  intros Hax. cbn zeta.
  destruct (dispatch_after_cases o dom event c)
    as [H | [(el & p & _ & _ & _ & H) | [(start & p & _ & _ & _ & _ & H) | (_ & _ & H)]]];
    rewrite H; cbn; auto.
  right. unfold movedPosition, applyAxisConstraints. rewrite Hax.
  apply constrainPosition_y. reflexivity.
Qed.

(** C6, as stated, fails: with [axis = "x"] and bounds whose top edge is 10,
    a drag that starts at y = 0 has y = 10 after its first move. *)
Lemma x_axis_y_is_clamped :
  let o := withAxis (withBounds observedOptions (Some (Bounds.mk 0 10 50 50)))
             AxisX in
  let c1 := run o pageDOM
              [Attach (Some 1%nat);
               Deliver (MouseEvent mousedown (Some 1%nat) 15 15)]
              initialController in
  let c2 := run o pageDOM [Deliver (MouseEvent mousemove (Some 1%nat) 115 15)]
              c1 in
  isDragging (draggableState c1) = true /\
  Pos.y (position (draggableState c1)) = 0 /\
  Pos.y (position (draggableState c2)) = 10 /\
  Pos.y (position (draggableState c2)) <> Pos.y (position (draggableState c1)).
Proof. cbv. repeat split; try reflexivity. discriminate. Qed.

(** A move event that lists a contact point has a readable pointer. *)
Lemma contact_point_position (event : NativeEvent) :
  isMove event = true ->
  hasContactPoint event = true ->
  exists p, getCurrentPosition event = Ok p.
Proof.
  destruct event as [[] target cx cy | [] target [|touch rest]];
    try discriminate; intros _ _; eexists; reflexivity.
Qed.

(** With [axis = "x"], a handled move keeps the drag going with the same
    start offset and stores the clamped value of the [position.y] it found. *)
Lemma x_axis_handled_move (o : UseDraggableOptions) (dom : DOM)
    (c : Controller) (event : NativeEvent) (start : Pos.t) :
  axis o = AxisX ->
  listening o = true ->
  isDragging (draggableState c) = true ->
  startPosRef c = Some start ->
  isMove event = true ->
  hasContactPoint event = true ->
  let c' := after (dispatchEvent o dom event c) in
  isDragging (draggableState c') = true /\
  startPosRef c' = Some start /\
  Pos.y (position (draggableState c'))
  = Pos.y (constrainPosition o (position (draggableState c))).
Proof.
  intros Hax Hl Hdrag Hstart Hmove Hcontact. cbn zeta.
  destruct (contact_point_position event Hmove Hcontact) as [p Hpos].
  destruct (move_while_dragging o dom event c start p Hl Hmove Hdrag Hstart
              Hpos) as [Hafter _].
  rewrite Hafter. cbn. repeat split.
  unfold movedPosition, applyAxisConstraints. rewrite Hax.
  apply constrainPosition_y. reflexivity.
Qed.

(** C6, amended. With [axis = "x"], after any sequence of move events the
    [position.y] is the one at the start of the sequence or that value
    clamped into the bounds; it is exactly the start value when no bounds are
    configured, and also when the start value already lies between the top
    and bottom edges.  As soon as one move of a drag has been handled, and
    after every further one, [position.y] is the start value clamped between
    the top and bottom edges, so a start value outside the bounds is
    replaced by the nearest edge. *)
Theorem x_axis_holds_y (o : UseDraggableOptions) (dom : DOM) (c : Controller)
    (moves : list NativeEvent) :
  axis o = AxisX ->
  Forall (fun event => isMove event = true) moves ->
  let y0 := Pos.y (position (draggableState c)) in
  let y' := Pos.y (position (draggableState (run o dom (map Deliver moves) c))) in
  (y' = y0 \/ y' = Pos.y (constrainPosition o (position (draggableState c)))) /\
  (bounds o = None -> y' = y0) /\
  (forall b, bounds o = Some b ->
     Bounds.top b <= y0 <= Bounds.bottom b -> y' = y0) /\
  (listening o = true ->
   isDragging (draggableState c) = true ->
   startPosRef c <> None ->
   moves <> [] ->
   Forall (fun event => hasContactPoint event = true) moves ->
   y' = Pos.y (constrainPosition o (position (draggableState c)))).
Proof.
  intros Hax Hmoves. cbn zeta.
  assert (Hy : forall evs c1,
     Pos.y (position (draggableState c1)) = Pos.y (position (draggableState c)) \/
     Pos.y (position (draggableState c1))
       = Pos.y (constrainPosition o (position (draggableState c))) ->
     Pos.y (position (draggableState (run o dom (map Deliver evs) c1)))
       = Pos.y (position (draggableState c)) \/
     Pos.y (position (draggableState (run o dom (map Deliver evs) c1)))
       = Pos.y (constrainPosition o (position (draggableState c)))).
  { induction evs as [|event rest IH]; intros c1 Hc1; cbn [map run perform].
    - exact Hc1.
    - apply IH.
      destruct (x_axis_move_y o dom c1 event Hax) as [-> | ->].
      + exact Hc1.
      + right. destruct Hc1 as [H | H].
        * apply constrainPosition_y. exact H.
        * rewrite <- (constrainPosition_idempotent o (position (draggableState c))).
          apply constrainPosition_y. exact H. }
  specialize (Hy moves c (or_introl eq_refl)).
  split; [exact Hy|]. split; [|split].
  - intros Hb. rewrite (constrainPosition_unbounded o _ Hb) in Hy.
    destruct Hy; assumption.
  - intros b Hb Hin. destruct Hy as [H | H]; [exact H|].
    rewrite H. unfold constrainPosition. rewrite Hb. cbn. lia.
  - intros Hl Hdrag Href Hne Hcontact.
    destruct (startPosRef c) as [start|] eqn:Hstart; [|contradiction].
    clear Hy Href.
    assert (Hrun : forall evs c1,
       Forall (fun event => isMove event = true) evs ->
       Forall (fun event => hasContactPoint event = true) evs ->
       isDragging (draggableState c1) = true ->
       startPosRef c1 = Some start ->
       Pos.y (position (draggableState c1))
         = Pos.y (constrainPosition o (position (draggableState c))) ->
       Pos.y (position (draggableState (run o dom (map Deliver evs) c1)))
         = Pos.y (constrainPosition o (position (draggableState c)))).
    { induction evs as [|event rest IH]; intros c1 Hm Hc Hd Hs Hy1;
        cbn [map run perform]; [exact Hy1|].
      inversion Hm as [|? ? Hm1 Hm2]; subst.
      inversion Hc as [|? ? Hc1 Hc2]; subst.
      destruct (x_axis_handled_move o dom c1 event start Hax Hl Hd Hs Hm1 Hc1)
        as (Hd' & Hs' & Hy').
      apply IH; try assumption.
      rewrite Hy'.
      rewrite <- (constrainPosition_idempotent o (position (draggableState c))).
      apply constrainPosition_y. exact Hy1. }
    destruct moves as [|event rest]; [contradiction|].
    inversion Hmoves as [|? ? Hm1 Hm2]; subst.
    inversion Hcontact as [|? ? Hc1 Hc2]; subst.
    cbn [map run perform].
    destruct (x_axis_handled_move o dom c event start Hax Hl Hdrag Hstart Hm1 Hc1)
      as (Hd' & Hs' & Hy').
    apply Hrun; assumption.
Qed.

Lemma x_axis_holds_y_witness :
  let o := withAxis (withBounds observedOptions (Some (Bounds.mk 0 10 50 50)))
             AxisX in
  let c := mkController
             (mkState true (Pos.mk 20 0) (Pos.mk 0 0) (Some (Pos.mk 5 5)))
             (Some 1%nat) (Some (Pos.mk 5 5)) in
  Pos.y (position (draggableState
    (run o pageDOM
       (map Deliver [MouseEvent mousemove None 115 15;
                     TouchEvent touchmove None [mkTouch 60 90]]) c))) = 10.
Proof.
  cbn zeta.
  refine (proj2 (proj2 (proj2 (x_axis_holds_y
            (withAxis (withBounds observedOptions (Some (Bounds.mk 0 10 50 50)))
               AxisX)
            pageDOM
            (mkController
               (mkState true (Pos.mk 20 0) (Pos.mk 0 0) (Some (Pos.mk 5 5)))
               (Some 1%nat) (Some (Pos.mk 5 5)))
            [MouseEvent mousemove None 115 15;
             TouchEvent touchmove None [mkTouch 60 90]] eq_refl _)))
            eq_refl eq_refl _ _ _);
    try discriminate; repeat constructor.
Defined.

(** ** The end-to-end scenario *)

Lemma callbacks_app (l1 l2 : list Effect) :
  callbacks (l1 ++ l2) = callbacks l1 ++ callbacks l2.
Proof.
  induction l1 as [|[|n s] l1 IH]; cbn; [reflexivity | exact IH |].
  rewrite IH. reflexivity.
Qed.

Lemma invocations_app (name : CallbackName) (l1 l2 : list Effect) :
  invocations name (l1 ++ l2) = invocations name l1 ++ invocations name l2.
Proof.
  unfold invocations. rewrite callbacks_app, filter_app, map_app. reflexivity.
Qed.

(** What a log whose callbacks are those of one optional invocation
    contributes to the invocations of a name. *)
Lemma invocations_of_invocationOf (o : UseDraggableOptions)
    (name fired : CallbackName) (s : DraggableState) (log : list Effect) :
  callbacks log = invocationOf o fired s ->
  invocations name log
  = if CallbackName_eqb fired name
    then match callbackOf o fired with Some _ => [s] | None => [] end
    else [].
Proof.
  intros H. unfold invocations. rewrite H. unfold invocationOf.
  destruct (callbackOf o fired); cbn;
    destruct (CallbackName_eqb fired name); reflexivity.
Qed.

(** C7. With axis both, no bounds and an element whose box starts at
    (10, 10): attach, pointer-down at (15, 15), pointer-move to (115, 15),
    pointer-up.  After the down the state is dragging with start offset
    (5, 5); after the move position and delta are both (110, 10); after the
    up the state is idle with the same delta, and [onEnd] has been invoked
    exactly once, with that final state. *)
Theorem end_to_end_scenario (o : UseDraggableOptions) (dom : DOM) (el : Node)
    (onEndCb : Callback) :
  listening o = true ->
  axis o = AxisBoth ->
  bounds o = None ->
  onEnd o = Some onEndCb ->
  getBoundingClientRect dom el = Rect.mk 10 10 ->
  let down := Deliver (MouseEvent mousedown (Some el) 15 15) in
  let move := Deliver (MouseEvent mousemove (Some el) 115 15) in
  let up := Deliver (MouseEvent mouseup (Some el) 115 15) in
  let c1 := run o dom [Attach (Some el); down] initialController in
  let c2 := run o dom [move] c1 in
  let c3 := run o dom [up] c2 in
  draggableState c1
    = mkState true (Pos.mk 0 0) (Pos.mk 0 0) (Some (Pos.mk 5 5)) /\
  draggableState c2
    = mkState true (Pos.mk 110 10) (Pos.mk 110 10) (Some (Pos.mk 5 5)) /\
  isDragging (draggableState c3) = false /\
  delta (draggableState c3) = delta (draggableState c2) /\
  position (draggableState c3) = Pos.mk 110 10 /\
  invocations OnEnd
    (trace o dom [Attach (Some el); down; move; up] initialController)
    = [draggableState c3].
Proof.
  intros Hl Hax Hb Hend Hrect. cbn zeta. cbn [run trace perform].
  set (c0 := after (setElementRef (Some el) initialController)).
  assert (Hlog0 : effects (setElementRef (Some el) initialController) = [])
    by reflexivity.
  destruct (down_on_element o dom (MouseEvent mousedown (Some el) 15 15) c0 el
              (Pos.mk 15 15) Hl eq_refl eq_refl eq_refl eq_refl)
    as [Hc1 Hlog1].
  set (c1 := after (dispatchEvent o dom (MouseEvent mousedown (Some el) 15 15) c0))
    in *.
  assert (Hs1 : startedState dom c0 el (Pos.mk 15 15)
                = mkState true (Pos.mk 0 0) (Pos.mk 0 0) (Some (Pos.mk 5 5))).
  { unfold startedState. rewrite Hrect. reflexivity. }
  rewrite Hs1 in Hc1, Hlog1. cbn [startPosition] in Hc1.
  assert (Hdrag1 : isDragging (draggableState c1) = true)
    by (rewrite Hc1; reflexivity).
  assert (Href1 : startPosRef c1 = Some (Pos.mk 5 5))
    by (rewrite Hc1; reflexivity).
  destruct (move_while_dragging o dom (MouseEvent mousemove (Some el) 115 15) c1
              (Pos.mk 5 5) (Pos.mk 115 15) Hl eq_refl Hdrag1 Href1 eq_refl)
    as [Hc2 Hlog2].
  set (c2 := after (dispatchEvent o dom (MouseEvent mousemove (Some el) 115 15) c1))
    in *.
  assert (Hs2 : movedState o c1 (Pos.mk 5 5) (Pos.mk 115 15)
                = mkState true (Pos.mk 110 10) (Pos.mk 110 10) (Some (Pos.mk 5 5))).
  { unfold movedState, movedPosition, applyAxisConstraints.
    rewrite Hax, (constrainPosition_unbounded o _ Hb), Hc1. reflexivity. }
  rewrite Hs2 in Hc2, Hlog2.
  assert (Hdrag2 : isDragging (draggableState c2) = true)
    by (rewrite Hc2; reflexivity).
  destruct (up_while_dragging o dom (MouseEvent mouseup (Some el) 115 15) c2 Hl
              eq_refl Hdrag2) as [Hc3 Hlog3].
  set (c3 := after (dispatchEvent o dom (MouseEvent mouseup (Some el) 115 15) c2))
    in *.
  rewrite Hlog0, !invocations_app.
  rewrite (invocations_of_invocationOf o OnEnd OnStart _ _ Hlog1).
  rewrite (invocations_of_invocationOf o OnEnd OnMove _ _ Hlog2).
  rewrite (invocations_of_invocationOf o OnEnd OnEnd _ _ Hlog3).
  cbn [CallbackName_eqb callbackOf app invocations callbacks filter map].
  rewrite Hend, Hc3, Hc2, Hc1. cbn. repeat split; reflexivity.
Qed.

Lemma end_to_end_scenario_witness :
  draggableState
    (run observedOptions pageDOM
       [Attach (Some 1%nat); Deliver (MouseEvent mousedown (Some 1%nat) 15 15);
        Deliver (MouseEvent mousemove (Some 1%nat) 115 15)] initialController)
  = mkState true (Pos.mk 110 10) (Pos.mk 110 10) (Some (Pos.mk 5 5)).
Proof.
  exact (proj1 (proj2 (end_to_end_scenario observedOptions pageDOM 1%nat quiet
                         eq_refl eq_refl eq_refl eq_refl eq_refl))).
Defined.

(** ** Callbacks and the stored state *)

Lemma listening_withoutCallbacks (o : UseDraggableOptions) :
  listening (withoutCallbacks o) = listening o.
Proof. reflexivity. Qed.

(** An optional callback never touches the controller. *)
Lemma invoke_after (name : CallbackName) (cb : option Callback)
    (s : DraggableState) (event : NativeEvent) (c : Controller) :
  after (invoke name cb s event c) = c.
Proof.
  destruct (invoke_cases name cb s event c) as [H | (f & _ & _ & H)];
    rewrite H; reflexivity.
Qed.

(** The controller an event leaves behind does not depend on the callbacks:
    it is the one the same hook without callbacks would leave, whether the
    supplied callbacks return or raise. *)
Theorem callbacks_do_not_change_state (o : UseDraggableOptions) (dom : DOM)
    (c : Controller) (event : NativeEvent) :
  after (dispatchEvent o dom event c)
  = after (dispatchEvent (withoutCallbacks o) dom event c).
Proof.
  unfold dispatchEvent. rewrite listening_withoutCallbacks.
  destruct (listening o); [|reflexivity].
  destruct c as [st el sp].
  destruct event as [[] target cx cy | [] target [|touch rest]];
    unfold_handlers;
    cbn [withoutCallbacks disabled onStart onMove onEnd axis bounds];
    split_paths; try reflexivity;
    repeat match goal with
    | |- context [invoke ?n ?cb ?s ?e ?c'] =>
        let H := fresh in
        pose proof (invoke_after n cb s e c') as H;
        destruct (invoke n cb s e c'); cbn in H; subst
    end; reflexivity.
Qed.

(** What an optional callback adds to the log. *)
Lemma invoke_effects (name : CallbackName) (cb : option Callback)
    (s : DraggableState) (event : NativeEvent) (c : Controller) :
  effects (invoke name cb s event c)
  = match cb with Some _ => [Invoked name s] | None => [] end.
Proof.
  destruct (invoke_cases name cb s event c) as [H | (f & Hcb & _ & H)];
    rewrite H; [reflexivity|]. rewrite Hcb. reflexivity.
Qed.

(** One event invokes at most one callback, the one of the event's phase,
    and passes it exactly the state that the event has just stored. *)
Theorem callback_receives_stored_state (o : UseDraggableOptions) (dom : DOM)
    (c : Controller) (event : NativeEvent) :
  let out := dispatchEvent o dom event c in
  callbacks (effects out) = [] \/
  (callbackOf o (callbackFor event) <> None /\
   callbacks (effects out)
   = [(callbackFor event, draggableState (after out))]).
Proof.
  cbn zeta. unfold dispatchEvent.
  destruct (listening o); [|left; reflexivity].
  destruct c as [st el sp].
  destruct event as [[] target cx cy | [] target [|touch rest]];
    handler_paths; try (left; reflexivity);
    match goal with
    | |- context [invoke ?n ?cb ?s ?e ?c'] =>
        let Ha := fresh in let He := fresh in
        pose proof (invoke_after n cb s e c') as Ha;
        pose proof (invoke_effects n cb s e c') as He;
        destruct (invoke n cb s e c'); cbn in Ha, He; subst;
        cbn [callbackFor callbackOf];
        destruct cb; cbn;
        [right; split; [discriminate | reflexivity] | left; reflexivity]
    end.
Qed.

(** ** preventDefault *)

(** [event.preventDefault()] is called exactly once, and before any
    callback, for a down whose target is the tracked element and for a move
    during a drag (the listeners being registered); it is not called for any
    other event, in particular for no up event.  It is called even when the
    start or the move then stops on an empty [touches] list. *)
Theorem preventDefault_exactly_on_guarded_paths (o : UseDraggableOptions)
    (dom : DOM) (c : Controller) (event : NativeEvent) :
  let out := dispatchEvent o dom event c in
  if passesGuards o c event
  then exists rest,
         effects out = PreventDefault :: rest /\
         filter isPreventDefault rest = []
  else filter isPreventDefault (effects out) = [].
Proof.
  cbn zeta. unfold dispatchEvent, passesGuards.
  destruct (listening o) eqn:Hl; [|reflexivity].
  destruct (listening_true o Hl) as (_ & _ & Hdis).
  destruct c as [st el sp]. cbn [andb elementRef startPosRef draggableState].
  destruct event as [[] target cx cy | [] target [|touch rest]];
    unfold_handlers; destruct (isDragging st); cbn [negb orb andb];
    split_paths; try congruence; cbn [andb];
    try reflexivity;
    try (eexists; split; reflexivity);
    match goal with
    | |- context [invoke ?n ?cb ?s ?e ?c'] =>
        let He := fresh in
        pose proof (invoke_effects n cb s e c') as He;
        destruct (invoke n cb s e c'); cbn in He; subst;
        destruct cb; cbn;
        try reflexivity; eexists; split; reflexivity
    end.
Qed.

(** ** Detaching in the middle of a drag *)

(** Move and up events do not look at the attached element: with another
    element attached, or none, they complete in the same way, log the same
    effects and write the same state. *)
Theorem move_and_up_ignore_elementRef (o : UseDraggableOptions) (dom : DOM)
    (c : Controller) (event : NativeEvent) (element : option Node) :
  isDown event = false ->
  let out := dispatchEvent o dom event c in
  let out' := dispatchEvent o dom event (withElement c element) in
  result out' = result out /\
  effects out' = effects out /\
  after out' = withElement (after out) element.
Proof.
  intros Hdown. cbn zeta. unfold dispatchEvent, withElement.
  destruct (listening o); [|repeat split; reflexivity].
  destruct c as [st el sp]. cbn [draggableState startPosRef].
  destruct event as [[] target cx cy | [] target [|touch rest]];
    try discriminate Hdown;
    handler_paths; try (repeat split; reflexivity);
    unfold invoke;
    repeat match goal with
    | |- context [match ?cb with Some _ => _ | None => _ end] => destruct cb
    end;
    unfold bind, emit, ret, lift; cbn;
    repeat match goal with
    | |- context [match ?f ?s ?e with Returns => _ | Throws => _ end] =>
        destruct (f s e)
    end;
    repeat split; reflexivity.
Qed.

Lemma move_and_up_ignore_elementRef_witness :
  draggableState
    (after (dispatchEvent observedOptions pageDOM
              (MouseEvent mousemove None 115 15) (withElement midDrag None)))
  = draggableState
      (after (dispatchEvent observedOptions pageDOM
                (MouseEvent mousemove None 115 15) midDrag)).
Proof.
  destruct (move_and_up_ignore_elementRef observedOptions pageDOM midDrag
              (MouseEvent mousemove None 115 15) None eq_refl)
    as (_ & _ & H).
  rewrite H. reflexivity.
Defined.

(** ** Where a drag puts the element *)

(** After a down on the attached element and one move (axis both), the
    stored position is the pointer of the move minus the offset recorded at
    the down, which is the pointer of the down minus the corner of the
    element's box, the whole clamped into the bounds.  The position stored
    before the drag, for instance by [setPosition], plays no part. *)
Theorem drag_position_is_pointer_minus_grab_offset (o : UseDraggableOptions)
    (dom : DOM) (c : Controller) (el : Node) (down move : NativeEvent)
    (p0 p1 : Pos.t) :
  listening o = true ->
  axis o = AxisBoth ->
  elementRef c = Some el ->
  isDown down = true ->
  target_of down = Some el ->
  getCurrentPosition down = Ok p0 ->
  isMove move = true ->
  getCurrentPosition move = Ok p1 ->
  let rect := getBoundingClientRect dom el in
  position (draggableState (run o dom [Deliver down; Deliver move] c))
  = constrainPosition o
      (Pos.mk (Pos.x p1 - (Pos.x p0 - Rect.left rect))
              (Pos.y p1 - (Pos.y p0 - Rect.top rect))).
Proof.
  intros Hl Hax Hel Hdown Htgt Hp0 Hmove Hp1. cbn zeta. cbn [run perform].
  destruct (down_on_element o dom down c el p0 Hl Hdown Hel Htgt Hp0)
    as [Hc1 _].
  set (c1 := after (dispatchEvent o dom down c)) in *.
  assert (Hdrag : isDragging (draggableState c1) = true)
    by (rewrite Hc1; reflexivity).
  assert (Href : startPosRef c1
                 = Some (Pos.mk (Pos.x p0 - Rect.left (getBoundingClientRect dom el))
                                (Pos.y p0 - Rect.top (getBoundingClientRect dom el))))
    by (rewrite Hc1; reflexivity).
  destruct (move_while_dragging o dom move c1 _ p1 Hl Hmove Hdrag Href Hp1)
    as [Hc2 _].
  rewrite Hc2. cbn. unfold movedPosition, applyAxisConstraints, Pos.sub.
  rewrite Hax. reflexivity.
Qed.

Lemma drag_position_is_pointer_minus_grab_offset_witness :
  position (draggableState
    (run observedOptions pageDOM
       [Deliver (TouchEvent touchstart (Some 1%nat) [mkTouch 15 15]);
        Deliver (MouseEvent mousemove None 115 15)]
       (after (setPosition observedOptions 700 700
                 (mkController initialState (Some 1%nat) None)))))
  = Pos.mk (115 - (15 - 10)) (15 - (15 - 10)).
Proof.
  exact (drag_position_is_pointer_minus_grab_offset observedOptions pageDOM
           (after (setPosition observedOptions 700 700
                     (mkController initialState (Some 1%nat) None)))
           1%nat (TouchEvent touchstart (Some 1%nat) [mkTouch 15 15])
           (MouseEvent mousemove None 115 15) (Pos.mk 15 15) (Pos.mk 115 15)
           eq_refl eq_refl eq_refl eq_refl eq_refl eq_refl eq_refl eq_refl).
Defined.

(** ** Reachable drags *)

(** Without registered listeners no sequence of actions starts a drag. *)
Lemma run_not_listening_idle (o : UseDraggableOptions) (dom : DOM)
    (actions : list Action) (c : Controller) :
  listening o = false ->
  isDragging (draggableState c) = false ->
  isDragging (draggableState (run o dom actions c)) = false.
Proof.
  intros Hl. revert c. induction actions as [|a rest IH]; intros c Hc.
  - exact Hc.
  - cbn [run]. apply IH. destruct a as [element | event | x y | ]; cbn [perform].
    + exact Hc.
    + rewrite not_listening_ignored by assumption. exact Hc.
    + exact Hc.
    + exact Hc.
Qed.

(** In every state reached from the initial one in which a drag is in
    progress, the listeners are registered and the start offset is recorded,
    so a move event that carries a pointer position is never dropped: it
    stores the position computed from that pointer and that offset. *)
Theorem reachable_drag_handles_moves (o : UseDraggableOptions) (dom : DOM)
    (actions : list Action) (event : NativeEvent) (p : Pos.t) :
  let c := run o dom actions initialController in
  isDragging (draggableState c) = true ->
  isMove event = true ->
  getCurrentPosition event = Ok p ->
  exists start,
    startPosition (draggableState c) = Some start /\
    position (draggableState (after (dispatchEvent o dom event c)))
    = constrainPosition o
        (applyAxisConstraints o (draggableState c) (Pos.sub p start)).
Proof.
  cbn zeta. intros Hdrag Hmove Hpos.
  assert (Hl : listening o = true).
  { destruct (listening o) eqn:E; [reflexivity|].
    rewrite (run_not_listening_idle o dom actions initialController E eq_refl)
      in Hdrag. discriminate Hdrag. }
  pose proof (run_refs_agree o dom actions initialController eq_refl) as Hagree.
  unfold refs_agree in Hagree. rewrite Hdrag in Hagree.
  destruct Hagree as [Hsome Heq].
  destruct (startPosRef (run o dom actions initialController)) as [start|] eqn:Href;
    [|contradiction].
  exists start. split; [symmetry; exact Heq|].
  destruct (move_while_dragging o dom event _ start p Hl Hmove Hdrag Href Hpos)
    as [Hafter _].
  rewrite Hafter. reflexivity.
Qed.

Lemma reachable_drag_handles_moves_witness :
  position (draggableState
    (after (dispatchEvent observedOptions pageDOM
              (TouchEvent touchmove None [mkTouch 40 50])
              (run observedOptions pageDOM
                 [Attach (Some 1%nat);
                  Deliver (MouseEvent mousedown (Some 1%nat) 15 15);
                  Attach None; SetPosition 3 3]
                 initialController))))
  = Pos.mk 35 45.
Proof.
  destruct (reachable_drag_handles_moves observedOptions pageDOM
              [Attach (Some 1%nat);
               Deliver (MouseEvent mousedown (Some 1%nat) 15 15);
               Attach None; SetPosition 3 3]
              (TouchEvent touchmove None [mkTouch 40 50]) (Pos.mk 40 50)
              eq_refl eq_refl eq_refl) as (start & Hstart & Hpos).
  injection Hstart as <-. exact Hpos.
Defined.

(** ** Clamping *)

(** For a rectangle with left <= right and top <= bottom, [constrainPosition]
    moves each coordinate to the nearest edge when it lies outside and leaves
    it alone when it lies inside; so a position inside the bounds is
    unchanged. *)
Theorem constrainPosition_nearest_edge (o : UseDraggableOptions)
    (b : Bounds.t) (p : Pos.t) :
  bounds o = Some b ->
  Bounds.ordered b ->
  let q := constrainPosition o p in
  Pos.x q = (if Pos.x p <? Bounds.left b then Bounds.left b
             else if Bounds.right b <? Pos.x p then Bounds.right b
             else Pos.x p) /\
  Pos.y q = (if Pos.y p <? Bounds.top b then Bounds.top b
             else if Bounds.bottom b <? Pos.y p then Bounds.bottom b
             else Pos.y p) /\
  (Bounds.contains b p -> q = p).
Proof.
  intros Hb [Hx Hy]. cbn zeta. unfold constrainPosition. rewrite Hb. cbn.
  repeat split.
  - destruct (Z.ltb_spec (Pos.x p) (Bounds.left b));
      [|destruct (Z.ltb_spec (Bounds.right b) (Pos.x p))]; lia.
  - destruct (Z.ltb_spec (Pos.y p) (Bounds.top b));
      [|destruct (Z.ltb_spec (Bounds.bottom b) (Pos.y p))]; lia.
  - intros [Hpx Hpy]. destruct p as [px py]. cbn in *. f_equal; lia.
Qed.

Lemma constrainPosition_nearest_edge_witness :
  constrainPosition (withBounds observedOptions (Some (Bounds.mk 0 0 50 50)))
    (Pos.mk 110 (-3))
  = Pos.mk 50 0.
Proof.
  assert (Hord : Bounds.ordered (Bounds.mk 0 0 50 50))
    by (unfold Bounds.ordered; cbn; lia).
  destruct (constrainPosition_nearest_edge
              (withBounds observedOptions (Some (Bounds.mk 0 0 50 50)))
              (Bounds.mk 0 0 50 50) (Pos.mk 110 (-3)) eq_refl Hord)
    as (Hx & Hy & _).
  destruct (constrainPosition _ _) as [qx qy]. cbn in Hx, Hy.
  rewrite Hx, Hy. reflexivity.
Defined.

(** ** The vertical axis *)

(** The clamped [x] depends on the [x] that goes in only. *)
Lemma constrainPosition_x (o : UseDraggableOptions) (p q : Pos.t) :
  Pos.x p = Pos.x q ->
  Pos.x (constrainPosition o p) = Pos.x (constrainPosition o q).
Proof.
  intros H. unfold constrainPosition. destruct (bounds o); cbn; congruence.
Qed.

(** With [axis = "y"] one event leaves [position.x] as it was or stores its
    clamped value. *)
Lemma y_axis_event_x (o : UseDraggableOptions) (dom : DOM) (c : Controller)
    (event : NativeEvent) :
  axis o = AxisY ->
  let c' := after (dispatchEvent o dom event c) in
  Pos.x (position (draggableState c')) = Pos.x (position (draggableState c)) \/
  Pos.x (position (draggableState c'))
    = Pos.x (constrainPosition o (position (draggableState c))).
Proof.
  intros Hax. cbn zeta.
  destruct (dispatch_after_cases o dom event c)
    as [H | [(el & p & _ & _ & _ & H) | [(start & p & _ & _ & _ & _ & H) | (_ & _ & H)]]];
    rewrite H; cbn; auto.
  right. unfold movedPosition, applyAxisConstraints. rewrite Hax.
  apply constrainPosition_x. reflexivity.
Qed.

(** With [axis = "y"], pointer events of any kind and in any number never
    move the element sideways: [position.x] stays what it was, or becomes
    that value clamped between the left and right edges; it stays exactly
    what it was when no bounds are configured or when it already lies
    between those edges. *)
Theorem y_axis_holds_x (o : UseDraggableOptions) (dom : DOM) (c : Controller)
    (events : list NativeEvent) :
  axis o = AxisY ->
  let x0 := Pos.x (position (draggableState c)) in
  let x' := Pos.x (position (draggableState (run o dom (map Deliver events) c))) in
  (x' = x0 \/ x' = Pos.x (constrainPosition o (position (draggableState c)))) /\
  (bounds o = None -> x' = x0) /\
  (forall b, bounds o = Some b ->
     Bounds.left b <= x0 <= Bounds.right b -> x' = x0).
Proof.
  intros Hax. cbn zeta.
  assert (Hx : forall evs c1,
     Pos.x (position (draggableState c1)) = Pos.x (position (draggableState c)) \/
     Pos.x (position (draggableState c1))
       = Pos.x (constrainPosition o (position (draggableState c))) ->
     Pos.x (position (draggableState (run o dom (map Deliver evs) c1)))
       = Pos.x (position (draggableState c)) \/
     Pos.x (position (draggableState (run o dom (map Deliver evs) c1)))
       = Pos.x (constrainPosition o (position (draggableState c)))).
  { induction evs as [|event rest IH]; intros c1 Hc1; cbn [map run perform].
    - exact Hc1.
    - apply IH.
      destruct (y_axis_event_x o dom c1 event Hax) as [-> | ->].
      + exact Hc1.
      + right. destruct Hc1 as [H | H].
        * apply constrainPosition_x. exact H.
        * rewrite <- (constrainPosition_idempotent o (position (draggableState c))).
          apply constrainPosition_x. exact H. }
  specialize (Hx events c (or_introl eq_refl)).
  split; [exact Hx|]. split.
  - intros Hb. rewrite (constrainPosition_unbounded o _ Hb) in Hx.
    destruct Hx; assumption.
  - intros b Hb Hin. destruct Hx as [H | H]; [exact H|].
    rewrite H. unfold constrainPosition. rewrite Hb. cbn. lia.
Qed.

Lemma y_axis_holds_x_witness :
  Pos.x (position (draggableState
    (run (withAxis observedOptions AxisY) pageDOM
       (map Deliver [MouseEvent mousedown (Some 1%nat) 15 15;
                     MouseEvent mousemove None 115 95;
                     MouseEvent mouseup None 115 95])
       (mkController (mkState false (Pos.mk 20 7) (Pos.mk 0 0) None)
                     (Some 1%nat) None)))) = 20.
Proof.
  exact (proj1 (proj2 (y_axis_holds_x (withAxis observedOptions AxisY) pageDOM
           (mkController (mkState false (Pos.mk 20 7) (Pos.mk 0 0) None)
                         (Some 1%nat) None)
           [MouseEvent mousedown (Some 1%nat) 15 15;
            MouseEvent mousemove None 115 95;
            MouseEvent mouseup None 115 95] eq_refl)) eq_refl).
Defined.

(** ** Listener registration *)

Lemma fresh_not_registered (run : nat) (target : EventTarget.t)
    (l : EventTarget.Listener) :
  EventTarget.fresh run target ->
  EventTarget.effectRun (EventTarget.callback l) = run ->
  existsb (EventTarget.same l) target = false.
Proof.
  intros Hfresh Hrun. induction target as [|x rest IH]; [reflexivity|].
  cbn [existsb]. rewrite IH.
  - rewrite orb_false_r. unfold EventTarget.same.
    destruct (Nat.eqb_spec (EventTarget.effectRun (EventTarget.callback l))
                (EventTarget.effectRun (EventTarget.callback x))) as [E|E].
    + exfalso. apply (Hfresh x); [left; reflexivity | congruence].
    + cbn. rewrite andb_false_r. reflexivity.
  - intros y Hy. apply Hfresh. right. exact Hy.
Qed.

Lemma add_after_fresh (run : nat) (target rest : EventTarget.t) (ty : string)
    (cb : EventTarget.Closure) (pass : option bool) :
  EventTarget.fresh run target ->
  EventTarget.effectRun cb = run ->
  existsb (EventTarget.same (EventTarget.mkListener ty cb false pass)) rest
    = false ->
  EventTarget.addEventListener (target ++ rest) ty cb pass
  = target ++ (rest ++ [EventTarget.mkListener ty cb false pass]).
Proof.
  intros Hfresh Hrun Hrest. unfold EventTarget.addEventListener.
  rewrite existsb_app, Hrest, (fresh_not_registered run) by assumption.
  cbn. rewrite app_assoc. reflexivity.
Qed.

Lemma remove_after_fresh (run : nat) (target rest : EventTarget.t)
    (ty : string) (cb : EventTarget.Closure) :
  EventTarget.fresh run target ->
  EventTarget.effectRun cb = run ->
  EventTarget.removeEventListener (target ++ rest) ty cb
  = target ++ EventTarget.removeFirst (EventTarget.mkListener ty cb false None) rest.
Proof.
  intros Hfresh Hrun. unfold EventTarget.removeEventListener.
  induction target as [|x xs IH]; [reflexivity|].
  cbn [app EventTarget.removeFirst].
  assert (Hx : EventTarget.same (EventTarget.mkListener ty cb false None) x = false).
  { pose proof (fresh_not_registered run [x]
                  (EventTarget.mkListener ty cb false None)) as H.
    cbn [existsb] in H. rewrite orb_false_r in H. apply H; [|exact Hrun].
    intros y [<- | []]. apply Hfresh. left. reflexivity. }
  rewrite Hx, IH; [reflexivity|].
  intros y Hy. apply Hfresh. right. exact Hy.
Qed.

(** The listener effect of [useDraggable] and its cleanup are symmetric: on
    a document none of whose listeners comes from this run of the effect,
    the effect adds six listeners when the hook is enabled and both surfaces
    exist (none otherwise), and the cleanup it returns removes exactly those,
    the touch listeners registered with [passive: false] included, leaving
    the listener list as it was. *)
Theorem listener_cleanup_restores_document (o : UseDraggableOptions)
    (run : nat) (document : EventTarget.t) :
  EventTarget.fresh run document ->
  List.length (listenerEffect o run document)
  = (List.length document + (if listening o then 6 else 0))%nat /\
  listenerCleanup o run (listenerEffect o run document) = document.
Proof.
  intros Hfresh. unfold listenerEffect, listenerCleanup, listening.
  destruct (customDocument o), (customWindow o), (disabled o); cbn [negb orb andb];
    try (split; [apply plus_n_O | reflexivity]).
  cbv zeta.
  rewrite <- (app_nil_r document) at 1 3.
  repeat (rewrite (add_after_fresh run) by (assumption || reflexivity);
          cbn [app]).
  split.
  - rewrite length_app. reflexivity.
  - repeat rewrite (remove_after_fresh run) by (assumption || reflexivity).
    repeat (progress (unfold EventTarget.same; cbn; rewrite ?Nat.eqb_refl; cbn)).
    apply app_nil_r.
Qed.

Lemma listener_cleanup_restores_document_witness :
  let theirs :=
    [EventTarget.mkListener "mousedown"
       (EventTarget.mkClosure 4 "handleMouseDown") false None] in
  listenerCleanup observedOptions 5 (listenerEffect observedOptions 5 theirs)
  = theirs.
Proof.
  refine (proj2 (listener_cleanup_restores_document observedOptions 5 _ _)).
  intros l [<- | []]. cbn. discriminate.
Defined.

(** ** getActiveElement *)

(** Induction along the nesting of shadow roots. *)
Lemma Element_nesting_ind (P : ActiveElement.Element -> Prop) :
  (forall n, P (ActiveElement.mkElement n None)) ->
  (forall n,
     P (ActiveElement.mkElement n (Some (ActiveElement.mkShadowRoot None)))) ->
  (forall n inner, P inner ->
     P (ActiveElement.mkElement n
          (Some (ActiveElement.mkShadowRoot (Some inner))))) ->
  forall e, P e.
Proof.
  intros Hleaf Hempty Hnest. fix IH 1. intros [n [[[inner|]]|]].
  - apply Hnest. apply IH.
  - apply Hempty.
  - apply Hleaf.
Qed.

(** The deep search from an element ends at a member of its focus chain that
    hosts no shadow root. *)
Lemma searchDeep_some (e r : ActiveElement.Element) :
  ActiveElement.searchDeep e = Some r ->
  ActiveElement.shadowRoot r = None /\ In r (ActiveElement.focusChain e).
Proof.
  induction e as [n | n | n inner IH] using Element_nesting_ind; intros H.
  - cbn in H. injection H as <-. split; [reflexivity | left; reflexivity].
  - discriminate H.
  - cbn [ActiveElement.searchDeep] in H. destruct (IH H) as [Hs Hin].
    split; [exact Hs|]. cbn [ActiveElement.focusChain]. right. exact Hin.
Qed.

(** The deep search from an element finds nothing exactly when its focus
    chain reaches a host whose shadow root has no active element. *)
Lemma searchDeep_none (e : ActiveElement.Element) :
  ActiveElement.searchDeep e = None <->
  exists host,
    In host (ActiveElement.focusChain e) /\
    ActiveElement.shadowRoot host
    = Some (ActiveElement.mkShadowRoot None).
Proof.
  induction e as [n | n | n inner IH] using Element_nesting_ind.
  - cbn. split; [discriminate|].
    intros (host & [<- | []] & Hs). discriminate Hs.
  - cbn. split; [|reflexivity]. intros _.
    eexists. split; [left; reflexivity | reflexivity].
  - cbn [ActiveElement.searchDeep ActiveElement.focusChain]. split.
    + intros H. apply IH in H as (host & Hin & Hs).
      exists host. split; [right; exact Hin | exact Hs].
    + intros (host & [<- | Hin] & Hs); [discriminate Hs|].
      apply IH. exists host. split; assumption.
Qed.

(** With [deep] on, an element returned by [getActiveElement] hosts no shadow
    root and lies on the chain of active elements that starts at
    [document.activeElement]. *)
Theorem getActiveElement_deep_is_innermost (document : ActiveElement.Document)
    (r : ActiveElement.Element) :
  ActiveElement.getActiveElement document true = Some r ->
  ActiveElement.shadowRoot r = None /\
  exists a,
    ActiveElement.documentActiveElement document = Some a /\
    In r (ActiveElement.focusChain a).
Proof.
  unfold ActiveElement.getActiveElement.
  destruct (ActiveElement.documentActiveElement document) as [a|];
    [|discriminate].
  cbn [negb]. intros H. apply searchDeep_some in H as [Hs Hin].
  split; [exact Hs|]. exists a. split; [reflexivity | exact Hin].
Qed.

Lemma getActiveElement_deep_is_innermost_witness :
  let input := ActiveElement.mkElement 3%nat None in
  let host :=
    ActiveElement.mkElement 1%nat
      (Some (ActiveElement.mkShadowRoot
               (Some (ActiveElement.mkElement 2%nat
                        (Some (ActiveElement.mkShadowRoot (Some input))))))) in
  ActiveElement.shadowRoot input = None /\
  ActiveElement.getActiveElement (ActiveElement.mkDocument (Some host)) true
  = Some input.
Proof.
  cbn zeta. split; [|reflexivity].
  exact (proj1 (getActiveElement_deep_is_innermost
                  (ActiveElement.mkDocument
                     (Some (ActiveElement.mkElement 1%nat
                        (Some (ActiveElement.mkShadowRoot
                           (Some (ActiveElement.mkElement 2%nat
                              (Some (ActiveElement.mkShadowRoot
                                 (Some (ActiveElement.mkElement 3%nat None)))))))))))
                  (ActiveElement.mkElement 3%nat None) eq_refl)).
Defined.

(** With [deep] on, [getActiveElement] returns [null] exactly when
    [document.activeElement] is [null] or the chain of active elements
    reaches a shadow host whose shadow root has no active element; in the
    second case the shallow search still returns an element. *)
Theorem getActiveElement_deep_null (document : ActiveElement.Document) :
  ActiveElement.getActiveElement document true = None <->
  ActiveElement.documentActiveElement document = None \/
  exists a host,
    ActiveElement.documentActiveElement document = Some a /\
    ActiveElement.getActiveElement document false = Some a /\
    In host (ActiveElement.focusChain a) /\
    ActiveElement.shadowRoot host = Some (ActiveElement.mkShadowRoot None).
Proof.
  unfold ActiveElement.getActiveElement.
  destruct (ActiveElement.documentActiveElement document) as [a|]; cbn [negb].
  - rewrite searchDeep_none. split.
    + intros (host & Hin & Hs). right. exists a, host. auto.
    + intros [H | (a' & host & Ha & _ & Hin & Hs)]; [discriminate H|].
      injection Ha as <-. exists host. auto.
  - split; [intros _; left; reflexivity | reflexivity].
Qed.

(** ** The removal observer *)

(** The flag of the inner loop: kept when set, otherwise set by the first
    removed element node that is or contains the tracked element. *)
Lemma scanRemoved_spec (contains : Node -> Node -> bool)
    (tracked : ActiveElement.Tracked) (nodes : list ActiveElement.RemovedNode)
    (flag : bool) :
  ActiveElement.scanRemoved contains tracked nodes flag
  = flag ||
    existsb (fun n =>
      Nat.eqb (ActiveElement.nodeType n) ActiveElement.ELEMENT_NODE &&
      ActiveElement.hits contains (ActiveElement.removed n) tracked) nodes.
Proof.
  induction nodes as [|n rest IH]; cbn [ActiveElement.scanRemoved existsb].
  - rewrite orb_false_r. reflexivity.
  - destruct (Nat.eqb (ActiveElement.nodeType n) ActiveElement.ELEMENT_NODE);
      cbn [andb orb]; [|exact IH].
    destruct (ActiveElement.hits contains (ActiveElement.removed n) tracked);
      cbn [orb]; [rewrite orb_true_r; reflexivity | exact IH].
Qed.

Lemma scanMutations_spec (contains : Node -> Node -> bool)
    (tracked : ActiveElement.Tracked)
    (mutations : list ActiveElement.MutationRecord) (flag : bool) :
  ActiveElement.scanMutations contains tracked mutations flag
  = flag ||
    existsb (fun m =>
      ActiveElement.isChildList (ActiveElement.mutationType m) &&
      existsb (fun n =>
        Nat.eqb (ActiveElement.nodeType n) ActiveElement.ELEMENT_NODE &&
        ActiveElement.hits contains (ActiveElement.removed n) tracked)
        (ActiveElement.removedNodes m)) mutations.
Proof.
  revert flag.
  induction mutations as [|m rest IH]; intros flag;
    cbn [ActiveElement.scanMutations existsb].
  - rewrite orb_false_r. reflexivity.
  - rewrite IH.
    destruct (ActiveElement.isChildList (ActiveElement.mutationType m));
      cbn [andb orb]; [|reflexivity].
    rewrite scanRemoved_spec, orb_assoc. reflexivity.
Qed.

(** The observer callback refreshes the tracked element exactly when
    [triggerOnRemoval] is on, the document exists, and some [childList]
    mutation of the batch removed an element node that is the tracked
    element or contains it; the [break] of the inner loop loses no later
    mutation.  Otherwise the tracked value stays, whatever
    [document.activeElement] has become. *)
Theorem observer_refreshes_on_removal (contains : Node -> Node -> bool)
    (o : ActiveElement.Options) (tracked : ActiveElement.Tracked)
    (mutations : list ActiveElement.MutationRecord)
    (document : ActiveElement.Document) :
  ActiveElement.perform contains o tracked
    (ActiveElement.Mutations mutations document)
  = if ActiveElement.triggerOnRemoval o && ActiveElement.customDocument o &&
       existsb (fun m =>
         ActiveElement.isChildList (ActiveElement.mutationType m) &&
         existsb (fun n =>
           Nat.eqb (ActiveElement.nodeType n) ActiveElement.ELEMENT_NODE &&
           ActiveElement.hits contains (ActiveElement.removed n) tracked)
           (ActiveElement.removedNodes m)) mutations
    then ActiveElement.getCurrentActiveElement o document
    else tracked.
Proof.
  cbn [ActiveElement.perform]. rewrite scanMutations_spec.
  destruct (ActiveElement.triggerOnRemoval o), (ActiveElement.customDocument o);
    reflexivity.
Qed.

(** With [deep] on, whatever happens to a mounted hook (focus changes,
    mutation batches, in any order), the element it tracks never hosts a
    shadow root. *)
Theorem tracked_element_is_innermost (contains : Node -> Node -> bool)
    (o : ActiveElement.Options) (actions : list ActiveElement.Action)
    (e : ActiveElement.Element) :
  ActiveElement.deep o = true ->
  ActiveElement.run contains o actions ActiveElement.Undefined
  = ActiveElement.Active e ->
  ActiveElement.shadowRoot e = None.
Proof.
  intros Hdeep. unfold ActiveElement.run.
  assert (Hcur : forall document r,
     ActiveElement.getCurrentActiveElement o document = ActiveElement.Active r ->
     ActiveElement.shadowRoot r = None).
  { intros document r. unfold ActiveElement.getCurrentActiveElement.
    rewrite Hdeep. destruct (negb (ActiveElement.customDocument o));
      [discriminate|].
    unfold ActiveElement.getActiveElement.
    destruct (ActiveElement.documentActiveElement document) as [a|];
      [|discriminate].
    cbn [negb].
    destruct (ActiveElement.searchDeep a) as [x|] eqn:Hx; cbn; [|discriminate].
    intros H. injection H as <-.
    apply (searchDeep_some a x Hx). }
  assert (Hrun : forall acts t,
     (forall r, t = ActiveElement.Active r -> ActiveElement.shadowRoot r = None) ->
     forall r, fold_left (ActiveElement.perform contains o) acts t
               = ActiveElement.Active r ->
               ActiveElement.shadowRoot r = None).
  { induction acts as [|a rest IH]; intros t Ht r; cbn [fold_left].
    - apply Ht.
    - apply IH. intros r'.
      destruct a as [document | document | mutations document];
        cbn [ActiveElement.perform];
        repeat match goal with
        | |- context [if ?b then _ else _] => destruct b
        end; auto; apply Hcur. }
  apply Hrun. discriminate.
Qed.

Lemma tracked_element_is_innermost_witness :
  ActiveElement.shadowRoot (ActiveElement.mkElement 3%nat None) = None.
Proof.
  apply (tracked_element_is_innermost (fun _ _ => false)
           (ActiveElement.mkOptions true true true false)
           [ActiveElement.Mount (ActiveElement.mkDocument None);
            ActiveElement.Focus
              (ActiveElement.mkDocument
                 (Some (ActiveElement.mkElement 1%nat
                    (Some (ActiveElement.mkShadowRoot
                       (Some (ActiveElement.mkElement 3%nat None)))))))]
           (ActiveElement.mkElement 3%nat None));
    reflexivity.
Defined.

(** ** useDocumentVisibility *)

(** The last element of a non-empty list does not depend on the default. *)
Lemma last_cons_default {A : Type} (l : list A) (a d d' : A) :
  last (a :: l) d = last (a :: l) d'.
Proof.
  revert a. induction l as [|b rest IH]; intros a; [reflexivity|].
  change (last (b :: rest) d = last (b :: rest) d'). apply IH.
Qed.

Lemma visibility_events (o : DocumentVisibility.Options)
    (events : list DocumentVisibility.DocumentVisibilityState)
    (current : option DocumentVisibility.DocumentVisibilityState) :
  fold_left (DocumentVisibility.handleVisibilityChange o) events current
  = if DocumentVisibility.customDocument o && DocumentVisibility.customWindow o
    then match events with
         | [] => current
         | v :: _ => Some (last events v)
         end
    else current.
Proof.
  revert current. induction events as [|v rest IH]; intros current.
  - cbn. destruct (_ && _); reflexivity.
  - cbn [fold_left]. rewrite IH.
    unfold DocumentVisibility.handleVisibilityChange,
      DocumentVisibility.getCurrentVisibilityState.
    destruct (DocumentVisibility.customDocument o),
      (DocumentVisibility.customWindow o); cbn [negb orb andb];
      try reflexivity.
    destruct rest as [|w rest']; [reflexivity|].
    f_equal. change (last (w :: rest') w = last (w :: rest') v).
    apply last_cons_default.
Qed.

(** The value of the visibility ref after mounting and any sequence of
    [visibilitychange], [pagehide] and [pageshow] events.  With a document
    and a window it is the document's visibility at the last event, or at
    mount when [immediate] is on and no event has arrived.  With a document
    but no window it is read once at mount and never again.  Without a
    document it stays undefined. *)
Theorem visibility_tracks_last_event (o : DocumentVisibility.Options)
    (atMount : DocumentVisibility.DocumentVisibilityState)
    (events : list DocumentVisibility.DocumentVisibilityState) :
  DocumentVisibility.run o atMount events
  = if DocumentVisibility.customDocument o
    then match DocumentVisibility.customWindow o, events with
         | true, v :: _ => Some (last events v)
         | _, _ => if DocumentVisibility.immediate o then Some atMount else None
         end
    else None.
Proof.
  unfold DocumentVisibility.run. rewrite visibility_events.
  unfold DocumentVisibility.mount, DocumentVisibility.getCurrentVisibilityState.
  destruct (DocumentVisibility.customDocument o),
    (DocumentVisibility.customWindow o), (DocumentVisibility.immediate o),
    events; reflexivity.
Qed.

(** ** Listener registration of the observing hooks *)

(** The focus listeners of [useActiveElement] are removed by the cleanup of
    the effect that added them: on a document and a window none of whose
    listeners comes from this run, the effect adds two listeners to each
    when both exist (none otherwise) and the cleanup leaves both listener
    lists as they were. *)
Theorem focus_cleanup_restores_surfaces (o : ActiveElement.Options)
    (run : nat) (document window : EventTarget.t) :
  EventTarget.fresh run document ->
  EventTarget.fresh run window ->
  let registered := focusListenerEffect o run (document, window) in
  let both := ActiveElement.customDocument o && ActiveElement.customWindow o in
  List.length (fst registered)
  = (List.length document + (if both then 2 else 0))%nat /\
  List.length (snd registered)
  = (List.length window + (if both then 2 else 0))%nat /\
  focusListenerCleanup o run registered = (document, window).
Proof.
  intros Hd Hw. cbn zeta. unfold focusListenerEffect, focusListenerCleanup.
  destruct (ActiveElement.customDocument o), (ActiveElement.customWindow o);
    cbn [negb orb andb fst snd];
    try (repeat split; apply plus_n_O).
  rewrite <- (app_nil_r document) at 1 3.
  rewrite <- (app_nil_r window) at 1 3.
  repeat (rewrite (add_after_fresh run) by (assumption || reflexivity);
          cbn [app]).
  split; [rewrite length_app; reflexivity|].
  split; [rewrite length_app; reflexivity|].
  repeat rewrite (remove_after_fresh run) by (assumption || reflexivity).
  repeat (progress (unfold EventTarget.same; cbn; rewrite ?Nat.eqb_refl; cbn)).
  rewrite !app_nil_r. reflexivity.
Qed.

Lemma focus_cleanup_restores_surfaces_witness :
  focusListenerCleanup (ActiveElement.mkOptions true true true false) 2
    (focusListenerEffect (ActiveElement.mkOptions true true true false) 2
       ([], []))
  = ([], []).
Proof.
  refine (proj2 (proj2 (focus_cleanup_restores_surfaces
            (ActiveElement.mkOptions true true true false) 2 [] [] _ _)));
    intros l [].
Defined.

(** The same for [useDocumentVisibility]: one listener on the document, two
    on the window, all three removed by the cleanup. *)
Theorem visibility_cleanup_restores_surfaces (o : DocumentVisibility.Options)
    (run : nat) (document window : EventTarget.t) :
  EventTarget.fresh run document ->
  EventTarget.fresh run window ->
  let registered := visibilityListenerEffect o run (document, window) in
  let both :=
    DocumentVisibility.customDocument o && DocumentVisibility.customWindow o in
  List.length (fst registered)
  = (List.length document + (if both then 1 else 0))%nat /\
  List.length (snd registered)
  = (List.length window + (if both then 2 else 0))%nat /\
  visibilityListenerCleanup o run registered = (document, window).
Proof.
  intros Hd Hw. cbn zeta.
  unfold visibilityListenerEffect, visibilityListenerCleanup.
  destruct (DocumentVisibility.customDocument o),
    (DocumentVisibility.customWindow o);
    cbn [negb orb andb fst snd];
    try (repeat split; apply plus_n_O).
  rewrite <- (app_nil_r document) at 1 3.
  rewrite <- (app_nil_r window) at 1 3.
  repeat (rewrite (add_after_fresh run) by (assumption || reflexivity);
          cbn [app]).
  split; [rewrite length_app; reflexivity|].
  split; [rewrite length_app; reflexivity|].
  repeat rewrite (remove_after_fresh run) by (assumption || reflexivity).
  repeat (progress (unfold EventTarget.same; cbn; rewrite ?Nat.eqb_refl; cbn)).
  rewrite !app_nil_r. reflexivity.
Qed.

Lemma visibility_cleanup_restores_surfaces_witness :
  visibilityListenerCleanup (DocumentVisibility.mkOptions true true true) 2
    (visibilityListenerEffect (DocumentVisibility.mkOptions true true true) 2
       ([], []))
  = ([], []).
Proof.
  refine (proj2 (proj2 (visibility_cleanup_restores_surfaces
            (DocumentVisibility.mkOptions true true true) 2 [] [] _ _)));
    intros l [].
Defined.

(** ** Touch and mouse *)

(** A touch event whose first contact point is at (x, y) writes the same
    state as the mouse event of the same phase at (x, y) with the same
    target; further contact points are not looked at. *)
Theorem touch_writes_what_mouse_writes (o : UseDraggableOptions) (dom : DOM)
    (c : Controller) (type : TouchType) (target : option Node) (x y : Z)
    (others : list Touch) :
  after (dispatchEvent o dom (TouchEvent type target (mkTouch x y :: others)) c)
  = after (dispatchEvent o dom (MouseEvent (mouseTwin type) target x y) c).
Proof.
  unfold dispatchEvent. destruct (listening o); [|reflexivity].
  destruct c as [st el sp].
  destruct type; cbn [mouseTwin]; handler_paths; try reflexivity;
    repeat match goal with
    | |- context [invoke ?n ?cb ?s ?e ?c'] =>
        let H := fresh in
        pose proof (invoke_after n cb s e c') as H;
        destruct (invoke n cb s e c'); cbn in H; subst
    end; reflexivity.
Qed.

(** ** Clamping numbers *)

Lemma number_le_refl (D : Number.Doubles) (v : Number.value D) :
  Number.leb D v v = true.
Proof. destruct (Number.leb_total D v v); assumption. Qed.

(** [Math.max(lo, Math.min(hi, v))] for [lo <= hi] and [v] other than [NaN]
    lies between [lo] and [hi]. *)
Lemma number_clamp_inside (D : Number.Doubles) (lo hi v : Number.number D) :
  Number.le lo hi ->
  v <> Number.NaN ->
  Number.le lo (Number.Math_max lo (Number.Math_min hi v)) /\
  Number.le (Number.Math_max lo (Number.Math_min hi v)) hi.
Proof.
  destruct lo as [|l], hi as [|h], v as [|w]; cbn; try contradiction;
    intros Hlh Hv; try (exfalso; apply Hv; reflexivity).
  destruct (Number.leb D h w) eqn:Hhw; cbn.
  - rewrite Hlh. cbn. split; [exact Hlh | apply number_le_refl].
  - assert (Hwh : Number.leb D w h = true).
    { destruct (Number.leb_total D h w) as [H | H]; [congruence | exact H]. }
    destruct (Number.leb D l w) eqn:Hlw; cbn.
    + split; assumption.
    + split; [apply number_le_refl | exact Hlh].
Qed.

(** [NaN] goes through the clamp. *)
Lemma number_clamp_NaN (D : Number.Doubles) (lo hi : Number.number D) :
  Number.Math_max lo (Number.Math_min hi Number.NaN) = Number.NaN.
Proof. destruct lo, hi; reflexivity. Qed.

(** For [hi < lo] the clamp of a number other than [NaN] is [lo]. *)
Lemma number_clamp_inverted (D : Number.Doubles) (lo hi v : Number.number D) :
  Number.lt hi lo ->
  v <> Number.NaN ->
  Number.Math_max lo (Number.Math_min hi v) = lo.
Proof.
  destruct lo as [|l], hi as [|h], v as [|w]; cbn; try contradiction;
    intros Hlt Hv; try (exfalso; apply Hv; reflexivity).
  destruct (Number.leb D h w) eqn:Hhw; cbn.
  - rewrite Hlt. reflexivity.
  - destruct (Number.leb D l w) eqn:Hlw; [|reflexivity].
    assert (Hwh : Number.leb D w h = true).
    { destruct (Number.leb_total D h w) as [H | H]; [congruence | exact H]. }
    rewrite (Number.leb_trans D l w h Hlw Hwh) in Hlt. discriminate Hlt.
Qed.

(** ** The integer model is the number model at integers *)

Lemma constrainPosition_numbers (o : UseDraggableOptions) (p : Pos.t) :
  numberOfPos (constrainPosition o p)
  = Number.constrainPosition (option_map numberOfBounds (bounds o))
      (numberOfPos p).
Proof.
  unfold constrainPosition, Number.constrainPosition.
  destruct (bounds o) as [b|]; [|reflexivity].
  unfold numberOfPos. cbn.
  f_equal.
  - destruct (Z.leb_spec (Bounds.right b) (Pos.x p)); cbn.
    + destruct (Z.leb_spec (Bounds.left b) (Bounds.right b)); f_equal; lia.
    + destruct (Z.leb_spec (Bounds.left b) (Pos.x p)); f_equal; lia.
  - destruct (Z.leb_spec (Bounds.bottom b) (Pos.y p)); cbn.
    + destruct (Z.leb_spec (Bounds.top b) (Bounds.bottom b)); f_equal; lia.
    + destruct (Z.leb_spec (Bounds.top b) (Pos.y p)); f_equal; lia.
Qed.

(** The state a handled move stores in the integer model is the one
    [handleDragMove] computes over numbers. *)
Lemma movedState_numbers (o : UseDraggableOptions) (c : Controller)
    (start p : Pos.t) :
  numberOfState (movedState o c start p)
  = Number.handleDragMove (option_map numberOfBounds (bounds o)) (axis o)
      (numberOfState (draggableState c)) (numberOfPos start) (numberOfPos p).
Proof.
  unfold movedState, movedPosition, Number.handleDragMove,
    Number.constrainedPos, numberOfState.
  cbn [isDragging position delta startPosition option_map Number.position].
  assert (Hraw : numberOfPos (applyAxisConstraints o (draggableState c)
                                (Pos.sub p start))
                 = Number.applyAxisConstraints (axis o)
                     (Number.mkState (isDragging (draggableState c))
                        (numberOfPos (position (draggableState c)))
                        (numberOfPos (delta (draggableState c)))
                        (option_map numberOfPos
                           (startPosition (draggableState c))))
                     (Number.Pos.mk
                        (Number.sub (Number.Pos.x (numberOfPos p))
                                    (Number.Pos.x (numberOfPos start)))
                        (Number.sub (Number.Pos.y (numberOfPos p))
                                    (Number.Pos.y (numberOfPos start))))).
  { unfold applyAxisConstraints, Number.applyAxisConstraints.
    destruct (axis o); reflexivity. }
  rewrite <- Hraw, <- constrainPosition_numbers. reflexivity.
Qed.

(** What [setPosition] stores in the integer model is what it computes over
    numbers. *)
Lemma setPosition_numbers (o : UseDraggableOptions) (c : Controller)
    (x y : Z) :
  numberOfState (draggableState (after (setPosition o x y c)))
  = Number.setPosition (option_map numberOfBounds (bounds o))
      (Number.Val (D := Number.integers) x)
      (Number.Val (D := Number.integers) y)
      (numberOfState (draggableState c)).
Proof.
  unfold setPosition, updateDraggableState, Number.setPosition, numberOfState.
  cbn [after draggableState isDragging position delta startPosition
       Number.isDragging Number.delta Number.startPosition].
  rewrite constrainPosition_numbers. reflexivity.
Qed.

(** ** Bounds *)

(** C3, as stated, fails three times.  [resetPosition] stores (0, 0)
    whatever the bounds are, here outside the rectangle from (10, 10) to
    (50, 50).  For an inverted rectangle (left 50, right 10) [setPosition]
    stores x = 50, which is not below the right edge.  And for the rectangle
    from (0, 0) to (50, 50), [setPosition(NaN, 20)] stores x = [NaN], which
    is not within any bounds. *)
Lemma bounds_can_be_left :
  let b := Bounds.mk 10 10 50 50 in
  let o := withBounds observedOptions (Some b) in
  let c := after (resetPosition (after (setPosition o 20 20 initialController))) in
  let b' := Bounds.mk 50 0 10 50 in
  let o' := withBounds observedOptions (Some b') in
  let c' := after (setPosition o' 20 20 initialController) in
  let nb := numberOfBounds (Bounds.mk 0 0 50 50) in
  let s := Number.setPosition (Some nb) Number.NaN
             (Number.Val (D := Number.integers) 20)
             (numberOfState initialState) in
  (position (draggableState c) = Pos.mk 0 0 /\
   ~ Bounds.contains b (position (draggableState c))) /\
  (position (draggableState c') = Pos.mk 50 20 /\
   ~ Bounds.contains b' (position (draggableState c'))) /\
  (Number.Bounds.ordered nb /\
   Number.Pos.x (Number.position s) = Number.NaN /\
   ~ Number.Bounds.contains nb (Number.position s)).
Proof.
  cbv [Bounds.contains]. cbn. repeat split; try reflexivity; try lia.
  intros [[H _] _]. exact H.
Qed.

(** C3, amended. For a bounds rectangle with left <= right and
    top <= bottom (so that no edge is [NaN]): a move-event update stores an
    x between left and right whenever the x that goes into the clamp is not
    [NaN], and a y between top and bottom whenever that y is not [NaN];
    [setPosition(x, y)] does the same for the x and the y it is given.  A
    [NaN] coordinate goes through the clamp and is stored as it is.
    [resetPosition] stores (0, 0) without clamping. *)
Theorem position_within_ordered_bounds (D : Number.Doubles)
    (b : Number.Bounds.t D) :
  Number.Bounds.ordered b ->
  (forall axis draggableState start currentPos,
     let raw := Number.constrainedPos axis draggableState start currentPos in
     let stored :=
       Number.position
         (Number.handleDragMove (Some b) axis draggableState start currentPos) in
     (Number.Pos.x raw <> Number.NaN ->
      Number.le (Number.Bounds.left b) (Number.Pos.x stored) /\
      Number.le (Number.Pos.x stored) (Number.Bounds.right b)) /\
     (Number.Pos.y raw <> Number.NaN ->
      Number.le (Number.Bounds.top b) (Number.Pos.y stored) /\
      Number.le (Number.Pos.y stored) (Number.Bounds.bottom b)) /\
     (Number.Pos.x raw = Number.NaN -> Number.Pos.x stored = Number.NaN) /\
     (Number.Pos.y raw = Number.NaN -> Number.Pos.y stored = Number.NaN)) /\
  (forall prev x y,
     let stored := Number.position (Number.setPosition (Some b) x y prev) in
     (x <> Number.NaN ->
      Number.le (Number.Bounds.left b) (Number.Pos.x stored) /\
      Number.le (Number.Pos.x stored) (Number.Bounds.right b)) /\
     (y <> Number.NaN ->
      Number.le (Number.Bounds.top b) (Number.Pos.y stored) /\
      Number.le (Number.Pos.y stored) (Number.Bounds.bottom b)) /\
     (x = Number.NaN -> Number.Pos.x stored = Number.NaN) /\
     (y = Number.NaN -> Number.Pos.y stored = Number.NaN)) /\
  (forall prev,
     Number.position (Number.resetPosition prev)
     = Number.Pos.mk (Number.Val (Number.zero D)) (Number.Val (Number.zero D))).
Proof.
  intros [Hx Hy].
  assert (Hclamp : forall pos,
     let stored := Number.constrainPosition (Some b) pos in
     (Number.Pos.x pos <> Number.NaN ->
      Number.le (Number.Bounds.left b) (Number.Pos.x stored) /\
      Number.le (Number.Pos.x stored) (Number.Bounds.right b)) /\
     (Number.Pos.y pos <> Number.NaN ->
      Number.le (Number.Bounds.top b) (Number.Pos.y stored) /\
      Number.le (Number.Pos.y stored) (Number.Bounds.bottom b)) /\
     (Number.Pos.x pos = Number.NaN -> Number.Pos.x stored = Number.NaN) /\
     (Number.Pos.y pos = Number.NaN -> Number.Pos.y stored = Number.NaN)).
  { intros pos. cbn. split; [|split; [|split]].
    - apply number_clamp_inside. exact Hx.
    - apply number_clamp_inside. exact Hy.
    - intros ->. apply number_clamp_NaN.
    - intros ->. apply number_clamp_NaN. }
  split; [|split].
  - intros axis draggableState start currentPos.
    apply (Hclamp (Number.constrainedPos axis draggableState start currentPos)).
  - intros prev x y. apply (Hclamp (Number.Pos.mk x y)).
  - reflexivity.
Qed.

Lemma position_within_ordered_bounds_witness :
  let b := numberOfBounds (Bounds.mk 0 0 50 50) in
  let s := numberOfState
             (mkState true (Pos.mk 20 7) (Pos.mk 0 0) (Some (Pos.mk 5 5))) in
  let stored :=
    Number.position
      (Number.handleDragMove (Some b) AxisX s (numberOfPos (Pos.mk 5 5))
         (numberOfPos (Pos.mk 115 15))) in
  Number.le (Number.Bounds.left b) (Number.Pos.x stored) /\
  Number.le (Number.Pos.x stored) (Number.Bounds.right b).
Proof.
  cbn zeta.
  refine (proj1 (proj1 (position_within_ordered_bounds Number.integers
            (numberOfBounds (Bounds.mk 0 0 50 50)) _)
            AxisX
            (numberOfState
               (mkState true (Pos.mk 20 7) (Pos.mk 0 0) (Some (Pos.mk 5 5))))
            (numberOfPos (Pos.mk 5 5)) (numberOfPos (Pos.mk 115 15))) _).
  - split; reflexivity.
  - discriminate.
Defined.

(** For an inverted rectangle the clamp does not fail: with right < left
    every x other than [NaN] becomes [left], with bottom < top every y other
    than [NaN] becomes [top]; a [NaN] coordinate stays [NaN]. *)
Theorem constrainPosition_inverted_collapses (D : Number.Doubles)
    (b : Number.Bounds.t D) (p : Number.Pos.t D) :
  let q := Number.constrainPosition (Some b) p in
  (Number.lt (Number.Bounds.right b) (Number.Bounds.left b) ->
   (Number.Pos.x p <> Number.NaN -> Number.Pos.x q = Number.Bounds.left b) /\
   (Number.Pos.x p = Number.NaN -> Number.Pos.x q = Number.NaN)) /\
  (Number.lt (Number.Bounds.bottom b) (Number.Bounds.top b) ->
   (Number.Pos.y p <> Number.NaN -> Number.Pos.y q = Number.Bounds.top b) /\
   (Number.Pos.y p = Number.NaN -> Number.Pos.y q = Number.NaN)).
Proof.
  cbn. split; intros Hlt; split.
  - apply number_clamp_inverted. exact Hlt.
  - intros ->. apply number_clamp_NaN.
  - apply number_clamp_inverted. exact Hlt.
  - intros ->. apply number_clamp_NaN.
Qed.

Lemma constrainPosition_inverted_collapses_witness :
  Number.Pos.x
    (Number.constrainPosition (Some (numberOfBounds (Bounds.mk 50 0 10 50)))
       (numberOfPos (Pos.mk 20 20)))
  = Number.Val (D := Number.integers) 50.
Proof.
  refine (proj1 (proj1 (constrainPosition_inverted_collapses Number.integers
            (numberOfBounds (Bounds.mk 50 0 10 50))
            (numberOfPos (Pos.mk 20 20))) _) _).
  - reflexivity.
  - discriminate.
Defined.
